(** * OrganoidTracker: positions, their store, markers, scores, undoable edits

    A shallow embedding of the lineage-graph core of OrganoidTracker
    (Python) and the properties its specification states about it.

    Conventions.
    - A Python [float] coordinate is embedded as a canonical rational
      ([Qc]); the concrete inputs used below (0, 1, ...) are exactly
      representable, so arithmetic on them is exact in both worlds.
    - A Python [dict] is embedded as a [gmap]; a [set] as a [gset].  The
      identity of a dictionary key built from a [Position] is the identity
      of its four stored fields.
    - A method that mutates [self] becomes a function from the old state to
      an [outcome]: the state it leaves behind, tagged with the exception
      it raised, if any.  A pure function that may raise returns a
      [result]. *)

From Stdlib Require Import QArith Qcanon Qcabs.
From stdpp Require Import base option list gmap strings fin_maps fin_sets.
From stdpp Require Import sorting.

Local Open Scope Z_scope.

#[local] Set Warnings "-clear-no-such-hyp".

(** ** Exceptions and outcomes *)

Inductive exn : Type :=
| ValueError
| KeyError
| AttributeError
| NotFound.

Global Instance exn_eq_dec : EqDecision exn.
Proof. solve_decision. Defined.

(** Result of a pure computation that may raise. *)
Inductive result (A : Type) : Type :=
| Ok (a : A)
| Raise (e : exn).
Arguments Ok {A} a.
Arguments Raise {A} e.

Global Instance result_ret : MRet result := fun A a => Ok a.

Global Instance result_bind : MBind result := fun A B k r =>
  match r with
  | Ok a => k a
  | Raise e => Raise e
  end.

(** Result of a mutating method: the state after the call, and the
    exception that ended it when it did not return normally. *)
Inductive outcome (S : Type) : Type :=
| Returned (s : S)
| Raised (e : exn) (s : S).
Arguments Returned {S} s.
Arguments Raised {S} e s.

Definition state_of {S} (o : outcome S) : S :=
  match o with
  | Returned s => s
  | Raised _ s => s
  end.


(** ** Position (autotrack/core/positions.py) *)

Record Position : Type := mkPosition {
  x : Qc;
  y : Qc;
  z : Qc;
  _time_point_number : option Z
}.

Global Instance Position_eq_dec : EqDecision Position.
Proof. solve_decision. Defined.

Global Instance Position_countable : Countable Position.
Proof.
  refine (inj_countable'
    (fun p => (x p, y p, z p, _time_point_number p))
    (fun t => match t with (a, b, c, d) => mkPosition a b c d end) _).
  by intros [].
Defined.

Definition time_point_number (p : Position) : option Z := _time_point_number p.

(** The tolerance [0.00001] of [Position.__eq__]. *)
Definition eq_tolerance : Qc := Q2Qc (1 # 100000).

Definition Qc_ltb (a b : Qc) : bool := bool_decide (a < b)%Qc.

Module Position.

(** [Position.__eq__]; [other] is a [Position], so the [isinstance] test
    holds.  The second conjunct of the source compares [x] again. *)
Definition __eq__ (self other : Position) : bool :=
  Qc_ltb (Qcabs (x self - x other)) eq_tolerance
  && Qc_ltb (Qcabs (x self - x other)) eq_tolerance
  && Qc_ltb (Qcabs (z self - z other)) eq_tolerance
  && bool_decide (_time_point_number self = _time_point_number other).

(** The equality the specification describes: all three coordinates and
    the time index take part. *)
Definition eq_by_all_coordinates (self other : Position) : bool :=
  Qc_ltb (Qcabs (x self - x other)) eq_tolerance
  && Qc_ltb (Qcabs (y self - y other)) eq_tolerance
  && Qc_ltb (Qcabs (z self - z other)) eq_tolerance
  && bool_decide (_time_point_number self = _time_point_number other).

End Position.

Definition Qc_of_Z (n : Z) : Qc := Q2Qc (inject_Z n).

Definition pos_at (a b c : Z) (t : Z) : Position :=
  mkPosition (Qc_of_Z a) (Qc_of_Z b) (Qc_of_Z c) (Some t).

(** ** Shapes

    Modelled from the spec: the shape classes ([autotrack.core.shape]) are
    not part of the sources at hand.  A shape is either the unknown shape
    or some known shape, identified here by an opaque description. *)
Inductive ParticleShape : Type :=
| UnknownShape
| KnownShape (descr : Z).

Global Instance ParticleShape_eq_dec : EqDecision ParticleShape.
Proof. solve_decision. Defined.

(** ** _PositionsAtTimePoint: the positions of one time point *)

Module PositionsAtTimePoint.

(** The field [_positions : Dict[Position, ParticleShape]]. *)
Abbreviation t := (gmap Position ParticleShape).

Definition positions (self : t) : gset Position := dom self.

Definition get_shape (self : t) (position : Position) : ParticleShape :=
  match self !! position with
  | None => UnknownShape
  | Some shape => shape
  end.

Definition add_position (self : t) (position : Position)
    (position_shape : option ParticleShape) : t :=
  match position_shape with
  | None =>
      if bool_decide (is_Some (self !! position))
      then self  (* Don't overwrite known shape with an unknown shape. *)
      else <[position := UnknownShape]> self
  | Some shape => <[position := shape]> self
  end.

(** [del self._positions[position]] raises [KeyError] on a missing key. *)
Definition detach_position (self : t) (position : Position) : outcome t :=
  match self !! position with
  | Some _ => Returned (delete position self)
  | None => Raised KeyError self
  end.

Definition is_empty (self : t) : bool := bool_decide (size self = 0%nat).

Definition __len__ (self : t) : nat := size self.

End PositionsAtTimePoint.

(** ** PositionCollection: all positions, by time point *)

Record PositionCollection : Type := mkPositionCollection {
  _all_positions : gmap Z (gmap Position ParticleShape);
  _min_time_point_number : option Z;
  _max_time_point_number : option Z
}.

Module PositionCollection.

Definition __init__ : PositionCollection :=
  mkPositionCollection ∅ None None.

Definition with_all_positions (all : gmap Z (gmap Position ParticleShape))
    (self : PositionCollection) : PositionCollection :=
  mkPositionCollection all (_min_time_point_number self)
    (_max_time_point_number self).

(** [self._all_positions.get(n)] where [n] may be [None]: no bucket is
    ever stored under [None]. *)
Definition bucket_of (self : PositionCollection) (n : option Z)
    : option (gmap Position ParticleShape) :=
  match n with
  | None => None
  | Some time_point_number => _all_positions self !! time_point_number
  end.

Definition of_time_point (self : PositionCollection) (time_point : Z)
    : gset Position :=
  match _all_positions self !! time_point with
  | None => ∅
  | Some positions_at_time_point =>
      if PositionsAtTimePoint.is_empty positions_at_time_point then ∅
      else PositionsAtTimePoint.positions positions_at_time_point
  end.

Definition _update_min_max_time_points_for_addition
    (new_time_point_number : Z) (self : PositionCollection)
    : PositionCollection :=
  let min' :=
    match _min_time_point_number self with
    | None => Some new_time_point_number
    | Some m => if bool_decide (new_time_point_number < m)
                then Some new_time_point_number else Some m
    end in
  let max' :=
    match _max_time_point_number self with
    | None => Some new_time_point_number
    | Some m => if bool_decide (new_time_point_number > m)
                then Some new_time_point_number else Some m
    end in
  mkPositionCollection (_all_positions self) min' max'.

(** The keys of [_all_positions], in the order the loop visits them. *)
Definition keys (self : PositionCollection) : list Z :=
  (map_to_list (_all_positions self)).*1.

Definition _update_min_max_time_points_for_removal
    (self : PositionCollection) : PositionCollection :=
  foldl (fun acc time_point_number =>
           _update_min_max_time_points_for_addition time_point_number acc)
        (mkPositionCollection (_all_positions self) None None)
        (keys self).

Definition detach_all_for_time_point (time_point : Z)
    (self : PositionCollection) : PositionCollection :=
  if bool_decide (is_Some (_all_positions self !! time_point))
  then _update_min_max_time_points_for_removal
         (with_all_positions (delete time_point (_all_positions self)) self)
  else self.

Definition add (position : Position) (shape : option ParticleShape)
    (self : PositionCollection) : outcome PositionCollection :=
  match time_point_number position with
  | None => Raised ValueError self
  | Some time_point_number =>
      let self1 :=
        _update_min_max_time_points_for_addition time_point_number self in
      let positions_at_time_point :=
        match _all_positions self1 !! time_point_number with
        | None => ∅
        | Some b => b
        end in
      Returned (with_all_positions
        (<[time_point_number :=
             PositionsAtTimePoint.add_position positions_at_time_point
               position shape]> (_all_positions self1)) self1)
  end.


Definition detach_position (position : Position)
    (self : PositionCollection) : outcome PositionCollection :=
  match time_point_number position with
  | None => Returned self
  | Some time_point_number =>
      match _all_positions self !! time_point_number with
      | None => Returned self
      | Some positions_at_time_point =>
          match PositionsAtTimePoint.detach_position
                  positions_at_time_point position with
          | Raised e _ => Raised e self
          | Returned detached =>
              if PositionsAtTimePoint.is_empty detached
              then Returned (_update_min_max_time_points_for_removal
                     (with_all_positions
                        (delete time_point_number (_all_positions self))
                        self))
              else Returned (with_all_positions
                     (<[time_point_number := detached]>
                        (_all_positions self)) self)
          end
      end
  end.

Definition get_shape (self : PositionCollection) (position : Position)
    : ParticleShape :=
  match bucket_of self (time_point_number position) with
  | None => UnknownShape
  | Some positions_at_time_point =>
      PositionsAtTimePoint.get_shape positions_at_time_point position
  end.

Definition first_time_point_number (self : PositionCollection) : option Z :=
  _min_time_point_number self.

Definition last_time_point_number (self : PositionCollection) : option Z :=
  _max_time_point_number self.


Definition __len__ (self : PositionCollection) : nat :=
  foldr (fun positions_at_time_point count =>
           (count + PositionsAtTimePoint.__len__ positions_at_time_point)%nat)
        0%nat (map_to_list (_all_positions self)).*2.

Definition has_positions (self : PositionCollection) : bool :=
  bool_decide (0 < size (_all_positions self))%nat.

(** The three mutators the store invariant ranges over, and a run of them
    from a given store.  A caller that catches the exception of a failed
    call goes on with the store as the call left it. *)
Inductive operation : Type :=
| Add (position : Position) (shape : option ParticleShape)
| DetachPosition (position : Position)
| DetachAllForTimePoint (time_point : Z).

Definition perform (self : PositionCollection) (o : operation)
    : PositionCollection :=
  match o with
  | Add position shape => state_of (add position shape self)
  | DetachPosition position => state_of (detach_position position self)
  | DetachAllForTimePoint time_point =>
      detach_all_for_time_point time_point self
  end.

Definition run (ops : list operation) (self : PositionCollection)
    : PositionCollection :=
  foldl perform self ops.

(** What the specification calls the minimum (maximum) time index over a
    set of time indices: [None] when there is none. *)
Definition is_minimum_of (o : option Z) (X : gset Z) : Prop :=
  match o with
  | None => X = ∅
  | Some m => m ∈ X /\ forall k, k ∈ X -> m <= k
  end.

Definition is_maximum_of (o : option Z) (X : gset Z) : Prop :=
  match o with
  | None => X = ∅
  | Some m => m ∈ X /\ forall k, k ∈ X -> k <= m
  end.

(** The time indices whose bucket holds at least one position. *)
Definition non_empty_time_points (self : PositionCollection) : gset Z :=
  dom (filter (fun kb => kb.2 <> ∅) (_all_positions self)).

(** The bookkeeping invariant of the store: no bucket is empty, and the
    recorded first and last time points are the least and greatest
    key. *)
Definition well_kept (self : PositionCollection) : Prop :=
  (forall time positions_at_time_point,
     _all_positions self !! time = Some positions_at_time_point ->
     positions_at_time_point <> ∅)
  /\ is_minimum_of (_min_time_point_number self) (dom (_all_positions self))
  /\ is_maximum_of (_max_time_point_number self) (dom (_all_positions self)).

End PositionCollection.

(** ** Score and Family (autotrack/core/score.py) *)

(** [d[key]] on a dictionary: raises [KeyError] on a missing key. *)
Definition dict_getitem {K V} `{Countable K} (d : gmap K V) (key : K)
    : result V :=
  match d !! key with
  | Some v => Ok v
  | None => Raise KeyError
  end.

Record Score : Type := mkScore {
  scores : gmap string Qc
}.

Module Score.


(** [get]: the [try] body is the dictionary access, the handler catches
    [KeyError] only. *)
Definition get (self : Score) (key : string) : result Qc :=
  match dict_getitem (scores self) key with
  | Ok v => Ok v
  | Raise KeyError => Ok (Qc_of_Z 0)
  | Raise e => Raise e
  end.

End Score.

(** Modelled from the spec: the class [Particle] ([autotrack.core.particles])
    is not part of the sources at hand; the specification types the mother
    and the daughters of a family as positions. *)
Abbreviation Particle := Position (only parsing).

Record Family : Type := mkFamily {
  mother : Particle;
  daughters : gset Particle
}.

Module Family.

(** [Family.__init__]: stores the mother and the set literal
    [{daughter1, daughter2}]; there is no [raise] in it. *)
Definition __init__ (mother daughter1 daughter2 : Particle) : result Family :=
  Ok (mkFamily mother {[daughter1; daughter2]}).

End Family.

(** ** Annotation values and the position data store *)

(** Modelled from the spec: the value kinds of an annotation (string,
    number, boolean); a number is an [int] or a [float]. *)
Inductive DataType : Type :=
| DStr (s : string)
| DInt (n : Z)
| DFloat (q : Qc)
| DBool (b : bool).

Global Instance DataType_eq_dec : EqDecision DataType.
Proof. solve_decision. Defined.

(** The numeric reading Python gives to a number or a boolean. *)
Definition as_number (v : DataType) : option Qc :=
  match v with
  | DStr _ => None
  | DInt n => Some (Qc_of_Z n)
  | DFloat q => Some q
  | DBool b => Some (Qc_of_Z (Z.b2z b))
  end.

(** Python's [==] on annotation values: strings by content, numbers and
    booleans by numeric value, a string never equals a number. *)
Definition py_eq (a b : DataType) : bool :=
  match a, b with
  | DStr s, DStr s' => bool_decide (s = s')
  | _, _ =>
      match as_number a, as_number b with
      | Some p, Some q => bool_decide (p = q)
      | _, _ => false
      end
  end.

(** [a == b] where [a] may be [None] and [b] is not. *)
Definition py_eq_opt (a : option DataType) (b : DataType) : bool :=
  match a with
  | None => false
  | Some a' => py_eq a' b
  end.

(** The integer a value denotes when it is used to look up an [Enum]
    member by value. *)
Definition as_integer (v : DataType) : option Z :=
  match as_number v with
  | Some q => if bool_decide (Qden (this q) = 1%positive)
              then Some (Qnum (this q)) else None
  | None => None
  end.

(** Modelled from the spec: the store behind [get_position_data] and
    [set_position_data] (class [Links] in [autotrack], [PositionData] in
    [organoid_tracker]) is not part of the sources at hand.  It is a mapping
    (Position, key) -> value where setting [None] removes the key. *)
Abbreviation PositionData := (gmap (Position * string) DataType).

Definition get_position_data (links : PositionData) (position : Position)
    (data_name : string) : option DataType :=
  links !! (position, data_name).

Definition set_position_data (links : PositionData) (position : Position)
    (data_name : string) (value : option DataType) : PositionData :=
  match value with
  | None => delete (position, data_name) links
  | Some v => <[(position, data_name) := v]> links
  end.

(** ** Link markers (autotrack/linking_analysis/linking_markers.py) *)

(** The enum [Error] ([autotrack.linking_analysis.errors]) is not part of
    the sources at hand: its interface is the member's [value] and the
    lookup of a member by value, [Error(n)], which fails for a number that
    is no member's value. *)
Class ErrorEnum (Error : Type) : Type := {
  value : Error -> Z;
  Error_of_value : Z -> option Error;
  Error_of_value_value : forall e, Error_of_value (value e) = Some e
}.

Inductive EndMarker : Type :=
| DEAD
| OUT_OF_VIEW.

Global Instance EndMarker_eq_dec : EqDecision EndMarker.
Proof. solve_decision. Defined.

Definition EndMarker_name (m : EndMarker) : string :=
  match m with
  | DEAD => "DEAD"
  | OUT_OF_VIEW => "OUT_OF_VIEW"
  end.

(** [EndMarker[name]]: lookup of a member by name. *)
Definition EndMarker_getitem (name : string) : result EndMarker :=
  if bool_decide (name = "DEAD") then Ok DEAD
  else if bool_decide (name = "OUT_OF_VIEW") then Ok OUT_OF_VIEW
  else Raise KeyError.

(** [str.upper] and [str.lower] on ASCII text. *)
Definition upper_ascii (c : Ascii.ascii) : Ascii.ascii :=
  let n := Ascii.N_of_ascii c in
  if bool_decide (97 <= n <= 122)%N then Ascii.ascii_of_N (n - 32) else c.

Definition lower_ascii (c : Ascii.ascii) : Ascii.ascii :=
  let n := Ascii.N_of_ascii c in
  if bool_decide (65 <= n <= 90)%N then Ascii.ascii_of_N (n + 32) else c.

Fixpoint upper (s : string) : string :=
  match s with
  | EmptyString => EmptyString
  | String c s' => String (upper_ascii c) (upper s')
  end.

Fixpoint lower (s : string) : string :=
  match s with
  | EmptyString => EmptyString
  | String c s' => String (lower_ascii c) (lower s')
  end.

Definition get_track_end_marker (links : PositionData) (position : Position)
    : result (option EndMarker) :=
  match get_position_data links position "ending" with
  | None => Ok None
  | Some (DStr ending_str) =>
      m ← EndMarker_getitem (upper ending_str); Ok (Some m)
  | Some _ => Raise AttributeError  (* no method [upper] *)
  end.

Definition set_track_end_marker (links : PositionData) (position : Position)
    (end_marker : option EndMarker) : PositionData :=
  match end_marker with
  | None => set_position_data links position "ending" None
  | Some m =>
      set_position_data links position "ending"
        (Some (DStr (lower (EndMarker_name m))))
  end.

Section ErrorMarkers.
Context {Error : Type} `{ErrorEnum Error}.

(** [Error(error_number)]. *)
Definition Error_of_data (error_number : DataType) : result Error :=
  match as_integer error_number with
  | Some n =>
      match Error_of_value n with
      | Some e => Ok e
      | None => Raise ValueError
      end
  | None => Raise ValueError
  end.

Definition get_error_marker (links : PositionData) (position : Position)
    : result (option Error) :=
  match get_position_data links position "error" with
  | None => Ok None
  | Some error_number =>
      if py_eq_opt (get_position_data links position "suppressed_error")
           error_number
      then Ok None  (* Error was suppressed *)
      else e ← Error_of_data error_number; Ok (Some e)
  end.

Definition suppress_error_marker (links : PositionData)
    (position : Position) (error : Error) : PositionData :=
  set_position_data links position "suppressed_error"
    (Some (DInt (value error))).

Definition is_error_suppressed (links : PositionData) (position : Position)
    (error : Error) : bool :=
  py_eq_opt (get_position_data links position "suppressed_error")
    (DInt (value error)).

Definition set_error_marker (links : PositionData) (position : Position)
    (error : option Error) : PositionData :=
  match error with
  | None => set_position_data links position "error" None
  | Some e => set_position_data links position "error" (Some (DInt (value e)))
  end.

End ErrorMarkers.

(** ** Division count of a lineage
       (autotrack/linking_analysis/lineage_division_count.py) *)

(** The class [LinkingTrack] ([autotrack.core.links]) is not part of the
    sources at hand: the function below uses it through these five
    methods only. *)
Class LinkingTrackMethods (LinkingTrack : Type) : Type := {
  min_time_point_number : LinkingTrack -> Z;
  max_time_point_number : LinkingTrack -> Z;
  get_next_tracks : LinkingTrack -> list LinkingTrack;
  find_last_position : LinkingTrack -> Position;
  find_all_descending_tracks : LinkingTrack -> bool -> list LinkingTrack
}.

Section DivisionCount.
Context {LinkingTrack : Type} `{LinkingTrackMethods LinkingTrack}.

(** The first [if] inside the loop: [not a and b != DEAD and c], evaluated
    left to right; the marker is read only for a track without next
    tracks. *)
Definition ended_for_unknown_reason (links : PositionData)
    (last_time_point_number : Z) (track : LinkingTrack) : result bool :=
  match get_next_tracks track with
  | _ :: _ => Ok false
  | [] =>
      marker ← get_track_end_marker links (find_last_position track);
      if bool_decide (marker <> Some DEAD)
      then Ok (bool_decide (max_time_point_number track
                            < last_time_point_number))
      else Ok false
  end.

(** The loop body over the remaining tracks, with the running count. *)
Fixpoint division_count_loop (links : PositionData)
    (last_time_point_number : Z) (tracks : list LinkingTrack)
    (division_count : Z) : result (option Z) :=
  match tracks with
  | [] => Ok (Some division_count)
  | track :: rest =>
      if bool_decide (min_time_point_number track > last_time_point_number)
      then division_count_loop links last_time_point_number rest
             division_count
      else
        unknown ← ended_for_unknown_reason links last_time_point_number track;
        if (unknown : bool) then Ok None
        else
          if bool_decide (max_time_point_number track
                          < last_time_point_number)
             && bool_decide (1 < length (get_next_tracks track))%nat
          then division_count_loop links last_time_point_number rest
                 (division_count + 1)
          else division_count_loop links last_time_point_number rest
                 division_count
  end.

Definition get_division_count_in_lineage (starting_track : LinkingTrack)
    (links : PositionData) (last_time_point_number : Z)
    : result (option Z) :=
  division_count_loop links last_time_point_number
    (find_all_descending_tracks starting_track true) 0.

(** The specification's reading of the same count, in its own words. *)

(** The track has a [DEAD] end marker on its last position. *)
Definition has_dead_marker (links : PositionData) (track : LinkingTrack)
    : bool :=
  match get_track_end_marker links (find_last_position track) with
  | Ok (Some DEAD) => true
  | _ => false
  end.

(** A track that vanished: no next tracks, no [DEAD] marker, ends before
    the time bound. *)
Definition vanished (links : PositionData) (last_time_point_number : Z)
    (track : LinkingTrack) : bool :=
  match get_next_tracks track with [] => true | _ => false end
  && negb (has_dead_marker links track)
  && bool_decide (max_time_point_number track < last_time_point_number).

Definition starts_after (last_time_point_number : Z) (track : LinkingTrack)
    : bool :=
  bool_decide (min_time_point_number track > last_time_point_number).

(** A track that divides before the time bound. *)
Definition divides_before (last_time_point_number : Z)
    (track : LinkingTrack) : bool :=
  bool_decide (max_time_point_number track < last_time_point_number)
  && bool_decide (1 < length (get_next_tracks track))%nat.

Definition count_divisions_in_lineage (starting_track : LinkingTrack)
    (links : PositionData) (last_time_point_number : Z) : option Z :=
  let descending := find_all_descending_tracks starting_track true in
  if existsb (vanished links last_time_point_number)
       (filter (fun track => starts_after last_time_point_number track = false)
          descending)
  then None
  else Some (Z.of_nat (length
         (filter (fun track => divides_before last_time_point_number track = true)
            descending))).

(** Every end-of-track annotation the lineage walk may read names a
    marker. *)
Definition end_markers_readable (links : PositionData)
    (starting_track : LinkingTrack) : Prop :=
  forall track, track ∈ find_all_descending_tracks starting_track true ->
    exists marker,
      get_track_end_marker links (find_last_position track) = Ok marker.

End DivisionCount.

(** Modelled from the spec: a concrete [LinkingTrack], for running the
    functions above: a track knows its first time point, its positions in
    time order and its next tracks; the descendants are walked depth
    first, a track before the tracks that follow it. *)
#[warnings="-register-all"]
Inductive TrackTree : Type :=
| Track (min_time : Z) (positions_by_time_point : list Position)
    (next_tracks : list TrackTree).

Definition TrackTree_min_time (track : TrackTree) : Z :=
  match track with Track m _ _ => m end.

Definition TrackTree_positions (track : TrackTree) : list Position :=
  match track with Track _ ps _ => ps end.

Definition TrackTree_next_tracks (track : TrackTree) : list TrackTree :=
  match track with Track _ _ next => next end.

Fixpoint TrackTree_descendants (track : TrackTree) : list TrackTree :=
  match track with
  | Track _ _ next =>
      flat_map (fun next_track =>
                  next_track :: TrackTree_descendants next_track) next
  end.

Global Instance TrackTree_methods : LinkingTrackMethods TrackTree := {
  min_time_point_number := TrackTree_min_time;
  max_time_point_number track :=
    TrackTree_min_time track
    + Z.of_nat (length (TrackTree_positions track)) - 1;
  get_next_tracks := TrackTree_next_tracks;
  find_last_position track :=
    List.last (TrackTree_positions track)
      (mkPosition (Qc_of_Z 0) (Qc_of_Z 0) (Qc_of_Z 0) None);
  find_all_descending_tracks track include_self :=
    if include_self then track :: TrackTree_descendants track
    else TrackTree_descendants track
}.

(** ** Undoable edits
       (organoid_tracker/visualizer/link_and_position_editor.py) *)

(** Modelled from the spec: the link graph ([Links]) is not part of the
    sources at hand.  It stores undirected edges; [remove_link] fails with
    [NotFound] when the edge is absent. *)
Abbreviation Links := (gset (gset Position)).

Module Links.

Definition edge (position1 position2 : Position) : gset Position :=
  {[position1; position2]}.

Definition contains_link (self : Links) (position1 position2 : Position)
    : bool :=
  bool_decide (edge position1 position2 ∈ self).


Definition remove_link (position1 position2 : Position) (self : Links)
    : outcome Links :=
  if contains_link self position1 position2
  then Returned (self ∖ {[edge position1 position2]})
  else Raised NotFound self.

End Links.

(** Modelled from the spec: the link annotation layer ([LinkData]) is not
    part of the sources at hand.  It is a mapping (ordered position pair,
    key) -> value where setting [None] removes the key. *)
Abbreviation LinkData := (gmap (Position * Position * string) DataType).

Module LinkData.

Definition get_link_data (self : LinkData) (position1 position2 : Position)
    (data_name : string) : option DataType :=
  self !! (position1, position2, data_name).



End LinkData.

Record Experiment : Type := mkExperiment {
  positions : PositionCollection;
  links : Links;
  link_data : LinkData;
  position_data : PositionData
}.

Definition with_links (l : Links) (experiment : Experiment) : Experiment :=
  mkExperiment (positions experiment) l (link_data experiment)
    (position_data experiment).


Definition with_position_data (d : PositionData) (experiment : Experiment)
    : Experiment :=
  mkExperiment (positions experiment) (links experiment)
    (link_data experiment) d.

(** [UNCERTAIN_MARKER] (position_markers.py). *)
Definition UNCERTAIN_MARKER : string := "uncertain".

(** The undoable actions modelled here, each with the data its object
    holds: [_DeleteLinksAction.position_pairs] and
    [_MarkPositionAsSomethingAction._position, _name]. *)
Inductive UndoableAction : Type :=
| _DeleteLinksAction
    (position_pairs : list (Position * Position * list (string * DataType)))
| _MarkPositionAsSomethingAction (_position : Position) (_name : string).


(** The undirected edges named by the pairs of a [_DeleteLinksAction]. *)
Abbreviation snapshot_edges position_pairs :=
  (map (fun triple : Position * Position * list (string * DataType) =>
          Links.edge triple.1.1 triple.1.2) position_pairs).

Section UndoableActions.

(** The error checker ([cell_error_finder]) is an external collaborator:
    it takes the experiment and the positions to recheck. *)
Context (find_errors_in_just_these_positions :
           Experiment -> list Position -> Experiment).

(** The loop of [_DeleteLinksAction.do]; an exception of [remove_link]
    ends it with the links removed so far. *)
Fixpoint remove_all_links
    (position_pairs : list (Position * Position * list (string * DataType)))
    (experiment : Experiment) : outcome Experiment :=
  match position_pairs with
  | [] => Returned experiment
  | (position1, position2, _) :: rest =>
      match Links.remove_link position1 position2 (links experiment) with
      | Returned l => remove_all_links rest (with_links l experiment)
      | Raised e _ => Raised e experiment
      end
  end.



(** [do]: the returned description is left out; only the state counts. *)
Definition do (action : UndoableAction) (experiment : Experiment)
    : outcome Experiment :=
  match action with
  | _DeleteLinksAction position_pairs =>
      remove_all_links position_pairs experiment
  | _MarkPositionAsSomethingAction _position _name =>
      let marked :=
        with_position_data
          (set_position_data (position_data experiment) _position _name
             (Some (DBool true))) experiment in
      if bool_decide (_name = UNCERTAIN_MARKER)
      then Returned (find_errors_in_just_these_positions marked [_position])
      else Returned marked
  end.



End UndoableActions.

(** ** The position store: filing by time point *)


(** The number of positions in a family of buckets. *)
Definition positions_in (all : gmap Z (gmap Position ParticleShape)) : nat :=
  sum_list_with size (map_to_list all).*2.

(** ** Score, Family and ScoresCollection: the remaining methods
       (autotrack/core/score.py) *)

Module ScoreMethods.



(** [total]: the running sum over [items()], starting from 0. *)
Definition total (self : Score) : Qc :=
  foldl (fun score item => (score + item.2)%Qc) (Qc_of_Z 0)
        (map_to_list (scores self)).

(** The order [str] values sort by. *)
Definition string_le (s1 s2 : string) : Prop := String.leb s1 s2 = true.

Global Instance string_le_dec : RelDecision string_le.
Proof. intros s1 s2. unfold string_le. apply _. Defined.

(** [keys]: the factor names, sorted. *)
Definition keys (self : Score) : list string :=
  merge_sort string_le (map_to_list (scores self)).*1.

Definition is_likely_mother (self : Score) : bool :=
  Qc_ltb (Qc_of_Z 3) (total self).

Definition is_unlikely_mother (self : Score) : bool :=
  Qc_ltb (total self) (Qc_of_Z 2).

End ScoreMethods.

Global Instance Score_eq_dec : EqDecision Score.
Proof. solve_decision. Defined.

Global Instance Family_eq_dec : EqDecision Family.
Proof. solve_decision. Defined.

Global Instance Family_countable : Countable Family.
Proof.
  refine (inj_countable' (fun f => (mother f, daughters f))
            (fun t => mkFamily t.1 t.2) _).
  by intros [].
Defined.

Section Families.

(** The class [Particle] is not part of the sources at hand: its [==] is
    taken as given. *)
Context (Particle___eq__ : Position -> Position -> bool).









End Families.

(** ** Link markers: start markers and the searches
       (autotrack/linking_analysis/linking_markers.py) *)

Inductive StartMarker : Type :=
| GOES_INTO_VIEW
| UNSURE.

Global Instance StartMarker_eq_dec : EqDecision StartMarker.
Proof. solve_decision. Defined.





(** Modelled from the spec: [find_all_positions_with_data] is not part of
    the sources at hand; it gives every (position, value) pair stored
    under the key. *)
Definition find_all_positions_with_data (links : PositionData)
    (data_name : string) : list (Position * DataType) :=
  omap (fun entry : Position * string * DataType =>
          if bool_decide (entry.1.2 = data_name)
          then Some (entry.1.1, entry.2) else None)
       (map_to_list links).

(** [find_death_positions]: the generator, run to its end. *)
Definition find_death_positions (links : PositionData) : list Position :=
  let death_marker := DStr (lower (EndMarker_name DEAD)) in
  omap (fun found : Position * DataType =>
          if py_eq found.2 death_marker then Some found.1 else None)
       (find_all_positions_with_data links "ending").

(** [find_errored_positions]: the generator, run to its end. *)
Definition find_errored_positions (links : PositionData) : list Position :=
  omap (fun found : Position * DataType =>
          if py_eq_opt (get_position_data links found.1 "suppressed_error")
               found.2
          then None  (* Error was suppressed *)
          else Some found.1)
       (find_all_positions_with_data links "error").

(** ** Position types
       (organoid_tracker/position_analysis/position_markers.py) *)

Definition get_position_type (position_data : PositionData)
    (position : Position) : result (option string) :=
  match get_position_data position_data position "type" with
  | None => Ok None
  | Some (DStr type) => Ok (Some (upper type))
  | Some _ => Raise AttributeError  (* no method [upper] *)
  end.

Definition set_position_type (position_data : PositionData)
    (position : Position) (type : option string) : PositionData :=
  let type_str :=
    match type with
    | Some t => Some (DStr (upper t))
    | None => None
    end in
  set_position_data position_data position "type" type_str.

(** [get_position_types]: the loop over the given set; the first type
    that cannot be read ends it. *)
Definition get_position_types (position_data : PositionData)
    (positions : gset Position) : result (gmap Position (option string)) :=
  foldl (fun (acc : result (gmap Position (option string))) position =>
           types ← acc;
           type ← get_position_type position_data position;
           Ok (<[position := type]> types))
        (Ok ∅) (elements positions).

(** [get_positions_of_type]: the generator, run to its end. *)
Definition get_positions_of_type (position_data : PositionData)
    (requested_type : string) : result (list Position) :=
  let requested := upper requested_type in
  foldr (fun (found : Position * DataType) (rest : result (list Position)) =>
           match found.2 with
           | DStr position_type =>
               later ← rest;
               if bool_decide (upper position_type = requested)
               then Ok (found.1 :: later) else Ok later
           | _ => Raise AttributeError
           end)
        (Ok []) (find_all_positions_with_data position_data "type").

(** [_SetAllAsType] (link_and_position_editor.py): the action holds the
    previous type of each position and the save name of the new type,
    [None] to remove the type.  Only the position data are touched. *)
Definition _SetAllAsType_do
    (_previous_position_types : gmap Position (option string))
    (save_name : option string) (position_data : PositionData)
    : PositionData :=
  foldl (fun acc position => set_position_type acc position save_name)
        position_data (map_to_list _previous_position_types).*1.

Definition _SetAllAsType_undo
    (_previous_position_types : gmap Position (option string))
    (position_data : PositionData) : PositionData :=
  foldl (fun acc position =>
           set_position_type acc position
             (mjoin (_previous_position_types !! position)))
        position_data (map_to_list _previous_position_types).*1.

(** ** Slicing a volume into overlapping parts
       (autotrack/imaging/image_slicer.py) *)

Record Slicer3d : Type := mkSlicer3d {
  _start : Z * Z * Z;
  _end : Z * Z * Z;
  _area_of_interest_start : Z * Z * Z;
  _area_of_interest_end : Z * Z * Z
}.

(** A loop [start = first; while start < volume: body; start += size]
    whose body yields a list, run with a bound on the number of rounds:
    [None] when the bound does not suffice. *)
Fixpoint while_below {A} (fuel : nat) (start volume size : Z)
    (body : Z -> option (list A)) : option (list A) :=
  if bool_decide (start < volume) then
    match fuel with
    | O => None
    | S fuel' =>
        yielded ← body start;
        rest ← while_below fuel' (start + size) volume size body;
        Some (yielded ++ rest)
    end
  else Some [].

(** The body of the innermost loop of [get_slices]; tuples are ZYX. *)
Definition slicer_at (volume_zyx image_part_size image_part_margin : Z * Z * Z)
    (start_z start_y start_x : Z) : Slicer3d :=
  let '(volume_z, volume_y, volume_x) := volume_zyx in
  let '(size_z, size_y, size_x) := image_part_size in
  let '(margin_z, margin_y, margin_x) := image_part_margin in
  let start_x_here := Z.max 0 (start_x - margin_x) in
  let start_y_here := Z.max 0 (start_y - margin_y) in
  let start_z_here := Z.max 0 (start_z - margin_z) in
  let end_x_here := start_x_here + size_x + 2 * margin_x in
  let end_y_here := start_y_here + size_y + 2 * margin_y in
  let end_z_here := start_z_here + size_z + 2 * margin_z in
  let '(start_x_here, end_x_here) :=
    if bool_decide (end_x_here > volume_x)
    then (start_x_here - (end_x_here - volume_x), volume_x)
    else (start_x_here, end_x_here) in
  let '(start_y_here, end_y_here) :=
    if bool_decide (end_y_here > volume_y)
    then (start_y_here - (end_y_here - volume_y), volume_y)
    else (start_y_here, end_y_here) in
  let '(start_z_here, end_z_here) :=
    if bool_decide (end_z_here > volume_z)
    then (start_z_here - (end_z_here - volume_z), volume_z)
    else (start_z_here, end_z_here) in
  mkSlicer3d (start_z_here, start_y_here, start_x_here)
    (end_z_here, end_y_here, end_x_here)
    (start_z, start_y, start_x)
    (start_z + size_z, start_y + size_y, start_x + size_x).

(** [get_slices]: the generator, run to its end with a bound on the
    rounds of each loop. *)
Definition get_slices (fuel : nat)
    (volume_zyx image_part_size image_part_margin : Z * Z * Z)
    : option (list Slicer3d) :=
  while_below fuel 0 volume_zyx.1.1 image_part_size.1.1 (fun start_z =>
    while_below fuel 0 volume_zyx.1.2 image_part_size.1.2 (fun start_y =>
      while_below fuel 0 volume_zyx.2 image_part_size.2 (fun start_x =>
        Some [slicer_at volume_zyx image_part_size image_part_margin
                start_z start_y start_x]))).

(** A point lies in the half-open box from [low] to [high]. *)
Definition in_box (low high point : Z * Z * Z) : Prop :=
  low.1.1 <= point.1.1 < high.1.1
  /\ low.1.2 <= point.1.2 < high.1.2
  /\ low.2 <= point.2 < high.2.

(** What [slicer_at] computes along one axis: the start and end of the
    slice for a part that starts at [start]. *)
Definition axis_bounds (volume size margin start : Z) : Z * Z :=
  let start_here := Z.max 0 (start - margin) in
  let end_here := start_here + size + 2 * margin in
  if bool_decide (end_here > volume)
  then (start_here - (end_here - volume), volume)
  else (start_here, end_here).

(** ** Concrete inputs

    Small stores, lineages and experiments on which the definitions above
    are run. *)

Module Examples.

(** A store with one position of known shape at time point 0. *)
Definition stored_position : Position := pos_at 0 0 0 0.



Definition one_position_store : PositionCollection :=
  state_of (PositionCollection.add stored_position (Some (KnownShape 7))
              PositionCollection.__init__).

(** Three additions and the removal of the earliest position. *)
Definition edits : list PositionCollection.operation :=
  [PositionCollection.Add (pos_at 0 0 0 3) None;
   PositionCollection.Add (pos_at 0 0 0 1) None;
   PositionCollection.Add (pos_at 0 0 0 5) None;
   PositionCollection.DetachPosition (pos_at 0 0 0 1)].

(** Modelled from the spec: the members of [Error] are not part of the
    sources at hand; the scenario of the specification uses the codes 4
    and 5. *)
Inductive ScenarioError : Type :=
| Error4
| Error5.

Definition ScenarioError_value (e : ScenarioError) : Z :=
  match e with
  | Error4 => 4
  | Error5 => 5
  end.

Definition ScenarioError_of_value (n : Z) : option ScenarioError :=
  if bool_decide (n = 4) then Some Error4
  else if bool_decide (n = 5) then Some Error5
  else None.

Global Instance ScenarioError_enum : ErrorEnum ScenarioError := {
  value := ScenarioError_value;
  Error_of_value := ScenarioError_of_value;
  Error_of_value_value e :=
    match e with
    | Error4 => eq_refl
    | Error5 => eq_refl
    end
}.

(** A mother track over time points 0-1 that divides into a daughter that
    dies at time point 3 and a daughter that lives on to time point 6. *)
Definition dying_daughter : TrackTree :=
  Track 2 [pos_at 1 0 0 2; pos_at 1 0 0 3] [].

Definition living_daughter : TrackTree :=
  Track 2 [pos_at 2 0 0 2; pos_at 2 0 0 3; pos_at 2 0 0 4; pos_at 2 0 0 5;
           pos_at 2 0 0 6] [].

Definition dividing_lineage : TrackTree :=
  Track 0 [pos_at 0 0 0 0; pos_at 0 0 0 1] [dying_daughter; living_daughter].

Definition death_marked : PositionData :=
  set_track_end_marker ∅ (pos_at 1 0 0 3) (Some DEAD).






End Examples.

(** ** More concrete inputs *)

Module MoreExamples.
Import Examples.




(** Position data in which one position has a type, given in lower
    case. *)
Definition typed_data : PositionData :=
  set_position_type ∅ stored_position (Some "stem").

Definition typed_positions : gset Position := {[stored_position]}.

Definition typed_before : gmap Position (option string) :=
  <[stored_position := Some "STEM"]> ∅.

(** A volume of one layer of 10 by 10 pixels, cut in parts of 4 by 4
    with a margin of 1. *)
Definition flat_volume : Z * Z * Z := (1, 10, 10).

Definition part_size : Z * Z * Z := (1, 4, 4).

Definition part_margin : Z * Z * Z := (0, 1, 1).

End MoreExamples.

(** * Properties *)

(** ** Position *)

(** C1 (the code at the failing input): two positions of the same time
    point whose [y] coordinates differ by a whole unit compare equal under
    [Position.__eq__], because [y] is never compared; an equality over all
    three coordinates and the time index tells them apart. *)
Theorem Position_eq_ignores_y :
  Position.__eq__ (pos_at 0 0 0 0) (pos_at 0 1 0 0) = true
  /\ Position.eq_by_all_coordinates (pos_at 0 0 0 0) (pos_at 0 1 0 0) = false.
Proof. split; vm_compute; reflexivity. Qed.

(** [Position.__eq__] does not look at the [y] coordinates at all. *)
Lemma Position_eq_y_unused (x1 y1 z1 x2 y2 z2 y1' y2' : Qc)
    (t1 t2 : option Z) :
  Position.__eq__ (mkPosition x1 y1 z1 t1) (mkPosition x2 y2 z2 t2)
  = Position.__eq__ (mkPosition x1 y1' z1 t1) (mkPosition x2 y2' z2 t2).
Proof. reflexivity. Qed.

(** ** Score and Family *)

(** C10: [Score.get] never raises: it returns the stored value of a factor
    that exists and 0 for one that does not. *)
Theorem Score_get_total (self : Score) (key : string) :
  Score.get self key
  = Ok (match scores self !! key with Some v => v | None => Qc_of_Z 0 end).
Proof.
  unfold Score.get, dict_getitem.
  destruct (scores self !! key); reflexivity.
Qed.

(** C5 (the code at the failing input): constructing a family whose two
    daughters are the same position succeeds and leaves a daughter set of
    one element. *)
Theorem Family_init_accepts_one_daughter (m d : Particle) :
  exists family,
    Family.__init__ m d d = Ok family
    /\ mother family = m
    /\ daughters family = {[d]}
    /\ size (daughters family) = 1%nat.
Proof.
  exists (mkFamily m {[d; d]}).
  assert (Hd : ({[d; d]} : gset Position) = {[d]}) by set_solver.
  cbn [mother daughters]. rewrite Hd.
  split; [unfold Family.__init__; by rewrite Hd|].
  repeat split. apply size_singleton.
Qed.

(** ** The position store *)

Module PositionCollectionFacts.
Import PositionCollection.



Lemma get_shape_in_bucket (self : PositionCollection) (position : Position)
    time positions_at_time_point :
  time_point_number position = Some time ->
  _all_positions self !! time = Some positions_at_time_point ->
  get_shape self position
  = PositionsAtTimePoint.get_shape positions_at_time_point position.
Proof. intros Ht Hb. unfold get_shape, bucket_of. by rewrite Ht, Hb. Qed.

Lemma add_all_positions (self : PositionCollection) (position : Position)
    (shape : option ParticleShape) time :
  time_point_number position = Some time ->
  exists self',
    add position shape self = Returned self'
    /\ _all_positions self'
       = <[time := PositionsAtTimePoint.add_position
                     (default ∅ (_all_positions self !! time))
                     position shape]> (_all_positions self)
    /\ _min_time_point_number self'
       = _min_time_point_number
           (_update_min_max_time_points_for_addition time self)
    /\ _max_time_point_number self'
       = _max_time_point_number
           (_update_min_max_time_points_for_addition time self).
Proof.
  intros Ht. unfold add. rewrite Ht. eexists. split; [reflexivity|].
  unfold with_all_positions, _update_min_max_time_points_for_addition.
  cbn [_all_positions _min_time_point_number _max_time_point_number].
  by destruct (_all_positions self !! time).
Qed.


(** *** Bookkeeping of the first and last time point *)

Lemma addition_all_positions time (self : PositionCollection) :
  _all_positions (_update_min_max_time_points_for_addition time self)
  = _all_positions self.
Proof. reflexivity. Qed.

Lemma addition_minimum time (self : PositionCollection) (X : gset Z) :
  is_minimum_of (_min_time_point_number self) X ->
  is_minimum_of
    (_min_time_point_number
       (_update_min_max_time_points_for_addition time self))
    ({[time]} ∪ X).
Proof.
  unfold is_minimum_of, _update_min_max_time_points_for_addition.
  cbn [_min_time_point_number].
  destruct (_min_time_point_number self) as [m|].
  - intros [Hm Hle]. case_bool_decide as Hlt.
    + split; [set_solver|].
      intros k [->%elem_of_singleton|Hk]%elem_of_union; [lia|].
      specialize (Hle k Hk). lia.
    + split; [set_solver|].
      intros k [->%elem_of_singleton|Hk]%elem_of_union; [lia|].
      by apply Hle.
  - intros ->. split; [set_solver|].
    intros k [->%elem_of_singleton|Hk]%elem_of_union; [lia|].
    by apply not_elem_of_empty in Hk.
Qed.

Lemma addition_maximum time (self : PositionCollection) (X : gset Z) :
  is_maximum_of (_max_time_point_number self) X ->
  is_maximum_of
    (_max_time_point_number
       (_update_min_max_time_points_for_addition time self))
    ({[time]} ∪ X).
Proof.
  unfold is_maximum_of, _update_min_max_time_points_for_addition.
  cbn [_max_time_point_number].
  destruct (_max_time_point_number self) as [m|].
  - intros [Hm Hle]. case_bool_decide as Hlt.
    + split; [set_solver|].
      intros k [->%elem_of_singleton|Hk]%elem_of_union; [lia|].
      specialize (Hle k Hk). lia.
    + split; [set_solver|].
      intros k [->%elem_of_singleton|Hk]%elem_of_union; [lia|].
      by apply Hle.
  - intros ->. split; [set_solver|].
    intros k [->%elem_of_singleton|Hk]%elem_of_union; [lia|].
    by apply not_elem_of_empty in Hk.
Qed.

(** The rescan loop over any list of keys. *)
Lemma rescan_loop (l : list Z) (self : PositionCollection) (X : gset Z) :
  is_minimum_of (_min_time_point_number self) X ->
  is_maximum_of (_max_time_point_number self) X ->
  let self' :=
    foldl (fun acc time =>
             _update_min_max_time_points_for_addition time acc) self l in
  _all_positions self' = _all_positions self
  /\ is_minimum_of (_min_time_point_number self') (list_to_set l ∪ X)
  /\ is_maximum_of (_max_time_point_number self') (list_to_set l ∪ X).
Proof.
  revert self X. induction l as [|time l IH]; intros self X Hmin Hmax.
  - cbn. by rewrite (left_id_L ∅ (∪)).
  - cbn [foldl].
    destruct (IH (_update_min_max_time_points_for_addition time self)
                ({[time]} ∪ X)) as (Hall & Hmin' & Hmax').
    { by apply addition_minimum. }
    { by apply addition_maximum. }
    assert (Hset : list_to_set (time :: l) ∪ X
                   = (list_to_set l ∪ ({[time]} ∪ X) : gset Z))
      by set_solver.
    rewrite Hset. by rewrite Hall.
Qed.

Lemma removal_rescans (self : PositionCollection) :
  let self' := _update_min_max_time_points_for_removal self in
  _all_positions self' = _all_positions self
  /\ is_minimum_of (_min_time_point_number self') (dom (_all_positions self))
  /\ is_maximum_of (_max_time_point_number self') (dom (_all_positions self)).
Proof.
  unfold _update_min_max_time_points_for_removal, keys.
  destruct (rescan_loop (map_to_list (_all_positions self)).*1
              (mkPositionCollection (_all_positions self) None None) ∅)
    as (Hall & Hmin & Hmax); [done..|].
  rewrite (right_id_L ∅ (∪)) in Hmin, Hmax.
  assert (Hdom : dom (_all_positions self)
                 = (list_to_set (map_to_list (_all_positions self)).*1
                    : gset Z))
    by apply leibniz_equiv, dom_alt.
  rewrite Hdom. done.
Qed.

(** A rescan depends on the buckets only. *)
Lemma removal_idempotent (self : PositionCollection) :
  _update_min_max_time_points_for_removal
    (_update_min_max_time_points_for_removal self)
  = _update_min_max_time_points_for_removal self.
Proof.
  destruct (removal_rescans self) as (Hall & _).
  unfold _update_min_max_time_points_for_removal at 1. unfold keys.
  cbn zeta in Hall. rewrite Hall. reflexivity.
Qed.

Lemma add_position_stores (positions_at_time_point : gmap Position ParticleShape)
    (position : Position) (shape : option ParticleShape) :
  is_Some (PositionsAtTimePoint.add_position positions_at_time_point
             position shape !! position).
Proof.
  unfold PositionsAtTimePoint.add_position. destruct shape as [shape|].
  - rewrite lookup_insert_eq. by eexists.
  - case_bool_decide as Hin; [done|]. rewrite lookup_insert_eq. by eexists.
Qed.

Lemma well_kept_init : well_kept __init__.
Proof.
  unfold well_kept, __init__. cbn. split; [|by rewrite dom_empty_L].
  intros time b Hb. by rewrite lookup_empty in Hb.
Qed.

Lemma add_well_kept (self : PositionCollection) (position : Position)
    (shape : option ParticleShape) :
  well_kept self -> well_kept (state_of (add position shape self)).
Proof.
  intros (Hne & Hmin & Hmax).
  destruct (time_point_number position) as [t|] eqn:Ht.
  - destruct (add_all_positions self position shape t Ht)
      as (self' & -> & Hall & Hmin' & Hmax').
    cbn [state_of]. unfold well_kept.
    rewrite Hall, Hmin', Hmax', dom_insert_L. split; [|split].
    + intros time b [[<- <-]|[_ Hb]]%lookup_insert_Some; [|by eapply Hne].
      intros Hempty.
      destruct (add_position_stores (default ∅ (_all_positions self !! t))
                  position shape) as [s Hs].
      by rewrite Hempty, lookup_empty in Hs.
    + by apply addition_minimum.
    + by apply addition_maximum.
  - unfold add. rewrite Ht. done.
Qed.

Lemma dropped_bucket_well_kept (self : PositionCollection) (time : Z) :
  well_kept self ->
  well_kept (_update_min_max_time_points_for_removal
               (with_all_positions (delete time (_all_positions self)) self)).
Proof.
  intros (Hne & _ & _).
  destruct (removal_rescans
              (with_all_positions (delete time (_all_positions self)) self))
    as (Hall & Hmin & Hmax).
  unfold well_kept. rewrite Hall. split; [|done].
  cbn [with_all_positions _all_positions].
  intros k b [_ Hb]%lookup_delete_Some. by eapply Hne.
Qed.

Lemma detach_position_well_kept (self : PositionCollection)
    (position : Position) :
  well_kept self -> well_kept (state_of (detach_position position self)).
Proof.
  intros Hkept. unfold detach_position.
  destruct (time_point_number position) as [t|]; [|done].
  destruct (_all_positions self !! t) as [b|] eqn:Hb; [|done].
  unfold PositionsAtTimePoint.detach_position.
  destruct (b !! position) as [s|]; [|done].
  unfold PositionsAtTimePoint.is_empty. case_bool_decide as Hsize.
  - by apply dropped_bucket_well_kept.
  - destruct Hkept as (Hne & Hmin & Hmax).
    cbn [state_of]. unfold well_kept, with_all_positions.
    cbn [_all_positions _min_time_point_number _max_time_point_number].
    assert (Hdom : dom (<[t := delete position b]> (_all_positions self))
                   = dom (_all_positions self)).
    { rewrite dom_insert_L.
      assert (t ∈ dom (_all_positions self)) by (apply elem_of_dom; eauto).
      set_solver. }
    rewrite Hdom. split; [|done].
    intros k b' [[<- <-]|[_ Hb']]%lookup_insert_Some; [|by eapply Hne].
    by apply map_size_non_empty_iff.
Qed.

Lemma detach_all_for_time_point_well_kept (self : PositionCollection)
    (time : Z) :
  well_kept self -> well_kept (detach_all_for_time_point time self).
Proof.
  intros Hkept. unfold detach_all_for_time_point.
  case_bool_decide; [by apply dropped_bucket_well_kept | done].
Qed.

Lemma perform_well_kept (self : PositionCollection) (o : operation) :
  well_kept self -> well_kept (perform self o).
Proof.
  destruct o; cbn [perform];
    auto using add_well_kept, detach_position_well_kept,
      detach_all_for_time_point_well_kept.
Qed.

Lemma run_well_kept (ops : list operation) (self : PositionCollection) :
  well_kept self -> well_kept (run ops self).
Proof.
  unfold run. revert self.
  induction ops as [|o ops IH]; intros self Hkept; [done|].
  cbn [foldl]. by apply IH, perform_well_kept.
Qed.

Lemma len_zero (self : PositionCollection) :
  well_kept self -> (__len__ self = 0%nat <-> _all_positions self = ∅).
Proof.
  intros (Hne & _ & _). unfold __len__. split.
  - intros Hlen. apply map_empty. intros time.
    destruct (_all_positions self !! time) as [b|] eqn:Hb; [|done].
    exfalso. apply (Hne _ _ Hb), map_size_empty_iff.
    assert (Hin : b ∈ (map_to_list (_all_positions self)).*2).
    { apply list_elem_of_fmap. exists (time, b).
      split; [done | by apply elem_of_map_to_list]. }
    revert Hlen Hin. generalize (map_to_list (_all_positions self)).*2.
    unfold PositionsAtTimePoint.__len__.
    intros l. induction l as [|b' l IH]; cbn [foldr].
    + by intros _ ?%elem_of_nil.
    + intros Hsum [->|Hin]%elem_of_cons; [lia|]. apply IH; [lia | done].
  - intros ->. by rewrite map_to_list_empty.
Qed.

Lemma minimum_none (o : option Z) (X : gset Z) :
  is_minimum_of o X -> (o = None <-> X = ∅).
Proof.
  destruct o as [m|]; cbn; [|done].
  intros [Hm _]. split; [done|]. intros ->. by apply not_elem_of_empty in Hm.
Qed.

Lemma maximum_none (o : option Z) (X : gset Z) :
  is_maximum_of o X -> (o = None <-> X = ∅).
Proof.
  destruct o as [m|]; cbn; [|done].
  intros [Hm _]. split; [done|]. intros ->. by apply not_elem_of_empty in Hm.
Qed.

Lemma non_empty_time_points_dom (self : PositionCollection) :
  well_kept self ->
  non_empty_time_points self = dom (_all_positions self).
Proof.
  intros (Hne & _ & _). unfold non_empty_time_points.
  f_equal. apply map_filter_id. intros time b Hb. by eapply Hne.
Qed.

(** C9: after any run of [add], [detach_position] and
    [detach_all_for_time_point] from the empty store, the first and last
    time point are the least and greatest time index with a non-empty
    bucket, and are [None] exactly when no position is stored; a removal
    that empties a bucket drops the bucket and leaves the first and last
    time point a rescan of the remaining buckets gives. *)
Theorem min_max_time_points_kept (ops : list operation) :
  let self := run ops __init__ in
  is_minimum_of (first_time_point_number self) (non_empty_time_points self)
  /\ is_maximum_of (last_time_point_number self) (non_empty_time_points self)
  /\ (first_time_point_number self = None <-> __len__ self = 0%nat)
  /\ (last_time_point_number self = None <-> __len__ self = 0%nat)
  /\ (forall position time shape,
        time_point_number position = Some time ->
        _all_positions self !! time = Some {[position := shape]} ->
        let self' := state_of (detach_position position self) in
        detach_position position self = Returned self'
        /\ _all_positions self' = delete time (_all_positions self)
        /\ self' = _update_min_max_time_points_for_removal self')
  /\ (forall time,
        is_Some (_all_positions self !! time) ->
        let self' := detach_all_for_time_point time self in
        _all_positions self' = delete time (_all_positions self)
        /\ self' = _update_min_max_time_points_for_removal self').
Proof.
  intros self.
  assert (Hkept : well_kept self) by apply run_well_kept, well_kept_init.
  pose proof (non_empty_time_points_dom self Hkept) as Hdom.
  pose proof (len_zero self Hkept) as Hlen.
  destruct Hkept as (Hne & Hmin & Hmax).
  unfold first_time_point_number, last_time_point_number. rewrite Hdom.
  split; [done|]. split; [done|].
  split; [by rewrite (minimum_none _ _ Hmin), dom_empty_iff_L|].
  split; [by rewrite (maximum_none _ _ Hmax), dom_empty_iff_L|].
  split.
  - intros position time shape Ht Hb. unfold detach_position.
    rewrite Ht, Hb. unfold PositionsAtTimePoint.detach_position.
    rewrite lookup_singleton_eq, delete_singleton_eq.
    unfold PositionsAtTimePoint.is_empty.
    rewrite bool_decide_eq_true_2 by apply map_size_empty.
    cbn [state_of]. split; [done|].
    rewrite removal_idempotent. split; [|done].
    by destruct (removal_rescans
      (with_all_positions (delete time (_all_positions self)) self))
      as (-> & _).
  - intros time Hsome. unfold detach_all_for_time_point.
    rewrite bool_decide_eq_true_2 by done.
    rewrite removal_idempotent. split; [|done].
    by destruct (removal_rescans
      (with_all_positions (delete time (_all_positions self)) self))
      as (-> & _).
Qed.



End PositionCollectionFacts.

(** ** Error markers *)

Lemma Qc_of_Z_this (n : Z) : this (Qc_of_Z n) = inject_Z n.
Proof.
  unfold Qc_of_Z. cbn [this Q2Qc]. apply Qred_identity.
  cbn. apply Z.gcd_1_r.
Qed.

Lemma Qc_of_Z_inj (a b : Z) : Qc_of_Z a = Qc_of_Z b -> a = b.
Proof.
  intros Heq. apply (f_equal this) in Heq.
  rewrite !Qc_of_Z_this in Heq. by injection Heq.
Qed.

Lemma py_eq_int (a b : Z) : py_eq (DInt a) (DInt b) = bool_decide (a = b).
Proof.
  unfold py_eq. cbn [as_number].
  apply bool_decide_ext. split; [apply Qc_of_Z_inj | by intros ->].
Qed.

Lemma as_integer_int (n : Z) : as_integer (DInt n) = Some n.
Proof.
  unfold as_integer. cbn [as_number]. rewrite Qc_of_Z_this. reflexivity.
Qed.

Section ErrorMarkerFacts.
Context {Error : Type} `{ErrorEnum Error}.

Lemma value_inj (e1 e2 : Error) : value e1 = value e2 -> e1 = e2.
Proof.
  intros Heq. pose proof (Error_of_value_value e1) as H1.
  rewrite Heq, Error_of_value_value in H1. by injection H1.
Qed.

Lemma Error_of_data_value (e : Error) : Error_of_data (DInt (value e)) = Ok e.
Proof.
  unfold Error_of_data. by rewrite as_integer_int, Error_of_value_value.
Qed.

(** C8: once error [e1] is suppressed on a position, setting error [e1]
    there shows no error marker while the "error" value stays stored, and
    setting a different error [e2] shows [e2]. *)
Theorem suppression_is_code_specific (links : PositionData)
    (position : Position) (e1 e2 : Error) :
  e1 <> e2 ->
  let suppressed := suppress_error_marker links position e1 in
  get_error_marker (set_error_marker suppressed position (Some e1)) position
  = Ok None
  /\ get_position_data (set_error_marker suppressed position (Some e1))
       position "error"
     = Some (DInt (value e1))
  /\ is_error_suppressed (set_error_marker suppressed position (Some e1))
       position e1 = true
  /\ get_error_marker (set_error_marker suppressed position (Some e2)) position
     = Ok (Some e2).
Proof.
  intros Hne suppressed. subst suppressed.
  unfold get_error_marker, is_error_suppressed, set_error_marker,
    suppress_error_marker, set_position_data, get_position_data.
  rewrite !lookup_insert_eq.
  rewrite !(lookup_insert_ne _ (position, "error")
              (position, "suppressed_error")) by done.
  rewrite !lookup_insert_eq. cbn [py_eq_opt]. rewrite !py_eq_int.
  rewrite bool_decide_eq_true_2 by done.
  rewrite bool_decide_eq_false_2
    by (intros Hv; apply Hne; symmetry; by apply value_inj).
  rewrite Error_of_data_value. done.
Qed.

End ErrorMarkerFacts.

(** ** Division count of a lineage *)

Section DivisionCountFacts.
Context {LinkingTrack : Type} `{LinkingTrackMethods LinkingTrack}.

(** With a readable end marker, the first test of the loop body is the
    specification's "vanished". *)
Lemma ended_for_unknown_reason_vanished (links : PositionData)
    (last_time_point_number : Z) (track : LinkingTrack) marker :
  get_track_end_marker links (find_last_position track) = Ok marker ->
  ended_for_unknown_reason links last_time_point_number track
  = Ok (vanished links last_time_point_number track).
Proof.
  intros Hmarker. unfold ended_for_unknown_reason, vanished, has_dead_marker.
  destruct (get_next_tracks track); [|done].
  rewrite Hmarker. cbn.
  destruct marker as [[]|]; cbn; by try case_bool_decide.
Qed.

Lemma division_count_loop_spec (links : PositionData)
    (last_time_point_number : Z) (tracks : list LinkingTrack)
    (division_count : Z) :
  (forall track, track ∈ tracks ->
     min_time_point_number track <= max_time_point_number track
     /\ exists marker,
          get_track_end_marker links (find_last_position track) = Ok marker) ->
  division_count_loop links last_time_point_number tracks division_count
  = Ok (if existsb (vanished links last_time_point_number)
             (filter (fun track =>
                        starts_after last_time_point_number track = false)
                tracks)
        then None
        else Some (division_count
                   + Z.of_nat (length
                       (filter (fun track =>
                                  divides_before last_time_point_number track
                                  = true) tracks)))).
Proof.
  revert division_count.
  induction tracks as [|track rest IH]; intros division_count Hok.
  - cbn. by rewrite Z.add_0_r.
  - destruct (Hok track) as (Hle & marker & Hmarker); [by left|].
    assert (Hrest : forall track', track' ∈ rest ->
              min_time_point_number track' <= max_time_point_number track'
              /\ exists marker',
                   get_track_end_marker links (find_last_position track')
                   = Ok marker')
      by (intros track' Hin; apply Hok; by right).
    cbn [division_count_loop].
    destruct (starts_after last_time_point_number track) eqn:Hstart.
    + unfold starts_after in Hstart. rewrite Hstart.
      apply bool_decide_eq_true_1 in Hstart.
      rewrite IH by done.
      rewrite (filter_cons_False _ track)
        by (unfold starts_after; rewrite bool_decide_eq_true_2; done).
      rewrite (filter_cons_False _ track); [done|].
      unfold divides_before.
      rewrite (bool_decide_eq_false_2
                 (max_time_point_number track < last_time_point_number))
        by lia.
      done.
    + rewrite (filter_cons_True _ track) by done.
      unfold starts_after in Hstart. rewrite Hstart.
      rewrite (ended_for_unknown_reason_vanished _ _ _ _ Hmarker).
      cbn [mbind result_bind existsb].
      destruct (vanished links last_time_point_number track) eqn:Hvan;
        [done|]. cbn [orb].
      fold (divides_before last_time_point_number track).
      destruct (divides_before last_time_point_number track) eqn:Hdiv.
      * rewrite IH by done. rewrite (filter_cons_True _ track) by done.
        destruct (existsb _ _); [done|]. cbn [length]. do 2 f_equal. lia.
      * rewrite IH by done.
        rewrite (filter_cons_False _ track) by (by rewrite Hdiv).
        done.
Qed.

Lemma existsb_false_iff {A} (f : A -> bool) (l : list A) :
  existsb f l = false <-> forall a, a ∈ l -> f a = false.
Proof.
  induction l as [|a l IH]; cbn [existsb].
  - split; [by intros _ a ?%elem_of_nil | done].
  - rewrite orb_false_iff, IH. split.
    + intros [Ha Hl] a' [->|Hin]%elem_of_cons; [done | by apply Hl].
    + intros Hall. split; [apply Hall; by left|].
      intros a' Hin. apply Hall. by right.
Qed.

Lemma filter_none {A} (P : A -> Prop) `{forall a, Decision (P a)}
    (l : list A) :
  (forall a, a ∈ l -> ~ P a) -> filter P l = [].
Proof.
  induction l as [|a l IH]; intros Hnone; [done|].
  rewrite filter_cons_False by (apply Hnone; by left).
  apply IH. intros a' Hin. apply Hnone. by right.
Qed.

(** C3: when every descending track ends no earlier than it starts and
    its end-of-track annotation, if any, names a marker, the division
    count of the lineage is [None] if some descending track that does not
    start after the bound has no next tracks, no [DEAD] marker and ends
    before the bound, and otherwise the number of descending tracks that
    end before the bound and have more than one next track.  In
    particular the count is [None], not 0, as soon as one descending track
    vanished, and it is 0 when no track vanished and none divides before
    the bound. *)
Theorem lineage_division_count (starting_track : LinkingTrack)
    (links : PositionData) (last_time_point_number : Z) :
  (forall track,
     track ∈ find_all_descending_tracks starting_track true ->
     min_time_point_number track <= max_time_point_number track) ->
  end_markers_readable links starting_track ->
  let result :=
    get_division_count_in_lineage starting_track links
      last_time_point_number in
  result = Ok (count_divisions_in_lineage starting_track links
                 last_time_point_number)
  /\ ((exists track,
         track ∈ find_all_descending_tracks starting_track true
         /\ vanished links last_time_point_number track = true) ->
      result = Ok None)
  /\ ((forall track,
         track ∈ find_all_descending_tracks starting_track true ->
         vanished links last_time_point_number track = false) ->
      (forall track,
         track ∈ find_all_descending_tracks starting_track true ->
         divides_before last_time_point_number track = false) ->
      result = Ok (Some 0)).
Proof.
  intros Hle Hread result.
  assert (Hresult : result
                    = Ok (count_divisions_in_lineage starting_track links
                            last_time_point_number)).
  { subst result.
    unfold get_division_count_in_lineage, count_divisions_in_lineage.
    rewrite division_count_loop_spec; [done|].
    intros track Hin. split; [by apply Hle | by apply Hread]. }
  split; [exact Hresult|]. rewrite Hresult.
  unfold count_divisions_in_lineage. split.
  - intros (track & Hin & Hvan).
    assert (Hex : existsb (vanished links last_time_point_number)
              (filter (fun track =>
                         starts_after last_time_point_number track = false)
                 (find_all_descending_tracks starting_track true)) = true).
    { apply existsb_exists. exists track. split; [|done].
      apply list_elem_of_In, list_elem_of_filter. split; [|done].
      unfold starts_after. apply bool_decide_eq_false_2.
      unfold vanished in Hvan.
      apply andb_true_iff in Hvan as [_ Hend%bool_decide_eq_true_1].
      specialize (Hle track Hin). lia. }
    by rewrite Hex.
  - intros Hnone Hnodiv.
    assert (Hex : existsb (vanished links last_time_point_number)
              (filter (fun track =>
                         starts_after last_time_point_number track = false)
                 (find_all_descending_tracks starting_track true)) = false).
    { apply existsb_false_iff. intros track [_ Hin]%list_elem_of_filter.
      by apply Hnone. }
    rewrite Hex, filter_none; [done|].
    intros track Hin. rewrite (Hnodiv track Hin). done.
Qed.

End DivisionCountFacts.

(** ** Undoable edits *)

Section UndoableActionFacts.
Context (find_errors_in_just_these_positions :
           Experiment -> list Position -> Experiment).












End UndoableActionFacts.

(** * The properties on concrete inputs *)

Module Runs.
Import Examples PositionCollection PositionCollectionFacts.





(** C9 on three additions followed by the removal of the earliest
    position: the first time point is rescanned to 3. *)
Lemma min_max_time_points_kept_run :
  first_time_point_number (run edits __init__) = Some 3
  /\ last_time_point_number (run edits __init__) = Some 5
  /\ is_minimum_of (Some 3) (non_empty_time_points (run edits __init__))
  /\ is_maximum_of (Some 5) (non_empty_time_points (run edits __init__)).
Proof.
  assert (Hfirst : first_time_point_number (run edits __init__) = Some 3)
    by (vm_compute; reflexivity).
  assert (Hlast : last_time_point_number (run edits __init__) = Some 5)
    by (vm_compute; reflexivity).
  destruct (min_max_time_points_kept edits) as (Hmin & Hmax & _).
  rewrite Hfirst in Hmin. rewrite Hlast in Hmax. done.
Defined.

(** C8 on the scenario of the specification: error 4 suppressed, then
    error 5 set. *)
Lemma suppression_is_code_specific_run :
  Error4 <> Error5
  /\ get_error_marker
       (set_error_marker (suppress_error_marker ∅ stored_position Error4)
          stored_position (Some Error4)) stored_position
     = Ok None
  /\ get_error_marker
       (set_error_marker (suppress_error_marker ∅ stored_position Error4)
          stored_position (Some Error5)) stored_position
     = Ok (Some Error5).
Proof.
  assert (Hne : Error4 <> Error5) by discriminate.
  destruct (suppression_is_code_specific ∅ stored_position Error4 Error5 Hne)
    as (Hhidden & _ & _ & Hshown).
  split; [exact Hne|]. split; [exact Hhidden | exact Hshown].
Defined.

(** C3 on a lineage that divides once: one daughter dies early with a
    [DEAD] marker, the other reaches the bound; the count is 1. *)
Lemma lineage_division_count_run :
  (forall track,
     track ∈ find_all_descending_tracks dividing_lineage true ->
     min_time_point_number track <= max_time_point_number track)
  /\ end_markers_readable death_marked dividing_lineage
  /\ get_division_count_in_lineage dividing_lineage death_marked 6
     = Ok (Some 1).
Proof.
  assert (Hle : forall track,
            track ∈ find_all_descending_tracks dividing_lineage true ->
            min_time_point_number track <= max_time_point_number track).
  { apply Forall_forall. repeat constructor; vm_compute; discriminate. }
  assert (Hread : end_markers_readable death_marked dividing_lineage).
  { unfold end_markers_readable. apply Forall_forall.
    repeat constructor; eexists; vm_compute; reflexivity. }
  split; [exact Hle|]. split; [exact Hread|].
  destruct (lineage_division_count dividing_lineage death_marked 6
              Hle Hread) as (Hcount & _).
  rewrite Hcount. vm_compute. reflexivity.
Defined.



End Runs.

(** * Further properties of the position store *)

Module PositionStoreFacts.
Import PositionCollection PositionCollectionFacts.











(** *** Counting positions *)

Lemma len_positions_in (self : PositionCollection) :
  __len__ self = positions_in (_all_positions self).
Proof.
  unfold __len__, positions_in, PositionsAtTimePoint.__len__.
  induction ((map_to_list (_all_positions self)).*2) as [|b l IH];
    [done|].
  cbn [foldr sum_list_with]. rewrite IH. lia.
Qed.


Lemma positions_in_delete (all : gmap Z (gmap Position ParticleShape))
    (time : Z) (b : gmap Position ParticleShape) :
  all !! time = Some b ->
  (size b + positions_in (delete time all))%nat = positions_in all.
Proof.
  intros Hsome. unfold positions_in.
  by rewrite <- (map_to_list_delete all time b Hsome).
Qed.



(** X5: after [detach_all_for_time_point] no position is listed for that
    time point, the positions of every other time point are listed as
    before, and the count has dropped by the number of positions the time
    point had. *)
Theorem detach_all_empties_time_point (self : PositionCollection)
    (time : Z) :
  let self' := detach_all_for_time_point time self in
  of_time_point self' time = ∅
  /\ (forall other, other <> time ->
        of_time_point self' other = of_time_point self other)
  /\ (__len__ self' + size (of_time_point self time))%nat = __len__ self.
Proof.
  intros self'. subst self'. unfold detach_all_for_time_point.
  case_bool_decide as Hsome.
  - destruct (removal_rescans
                (with_all_positions (delete time (_all_positions self)) self))
      as (Hall & _).
    cbn [with_all_positions _all_positions] in Hall.
    split; [|split].
    + unfold of_time_point. by rewrite Hall, lookup_delete_eq.
    + intros other Hother. unfold of_time_point.
      by rewrite Hall, lookup_delete_ne.
    + rewrite !len_positions_in, Hall.
      destruct Hsome as [b Hb].
      rewrite <- (positions_in_delete _ time b Hb).
      unfold of_time_point. rewrite Hb.
      unfold PositionsAtTimePoint.is_empty, PositionsAtTimePoint.positions.
      case_bool_decide as Hsize.
      * rewrite size_empty. lia.
      * rewrite size_dom. lia.
  - split; [|split; [done|]].
    + unfold of_time_point.
      destruct (_all_positions self !! time) eqn:Hb; [|done].
      destruct Hsome. by eexists.
    + unfold of_time_point.
      destruct (_all_positions self !! time) eqn:Hb;
        [destruct Hsome; by eexists|].
      rewrite size_empty. lia.
Qed.

(** X6: in a well-kept store [has_positions] says the same as a count
    above zero and as a first (or last) time point being set. *)
Theorem has_positions_means_nonempty (self : PositionCollection) :
  well_kept self ->
  (has_positions self = true <-> (0 < __len__ self)%nat)
  /\ (has_positions self = true <-> first_time_point_number self <> None)
  /\ (has_positions self = true <-> last_time_point_number self <> None).
Proof.
  intros Hkept. pose proof (len_zero self Hkept) as Hlen.
  destruct Hkept as (Hne & Hmin & Hmax).
  assert (Hhas : has_positions self = true <-> _all_positions self <> ∅).
  { unfold has_positions. rewrite bool_decide_eq_true.
    rewrite <- map_size_non_empty_iff. lia. }
  unfold first_time_point_number, last_time_point_number.
  rewrite (minimum_none _ _ Hmin), (maximum_none _ _ Hmax), dom_empty_iff_L.
  rewrite Hhas. split; [|done]. rewrite <- Hlen. lia.
Qed.


(** *** Filing by time point *)





End PositionStoreFacts.

(** * Further properties of scores and families *)

Module ScoreFacts.
Import ScoreMethods.





(** X11: no score is both a likely and an unlikely mother, and a score
    whose total lies between 2 and 3 is neither. *)
Theorem mother_thresholds_exclusive (self : Score) :
  (is_likely_mother self = true -> is_unlikely_mother self = false)
  /\ (is_unlikely_mother self = true -> is_likely_mother self = false)
  /\ ((Qc_of_Z 2 <= total self)%Qc -> (total self <= Qc_of_Z 3)%Qc ->
      is_likely_mother self = false /\ is_unlikely_mother self = false).
Proof.
  unfold is_likely_mother, is_unlikely_mother, Qc_ltb.
  assert (H23 : (Qc_of_Z 2 < Qc_of_Z 3)%Qc) by (vm_compute; reflexivity).
  split; [|split].
  - intros Hlikely%bool_decide_eq_true_1. apply bool_decide_eq_false_2.
    intros Hunlikely.
    apply (Qclt_not_eq (total self) (total self)); [|done].
    eapply Qclt_trans; [exact Hunlikely|]. eapply Qclt_trans; eauto.
  - intros Hunlikely%bool_decide_eq_true_1. apply bool_decide_eq_false_2.
    intros Hlikely.
    apply (Qclt_not_eq (total self) (total self)); [|done].
    eapply Qclt_trans; [exact Hunlikely|]. eapply Qclt_trans; eauto.
  - intros H2 H3. split; apply bool_decide_eq_false_2.
    + by apply Qcle_not_lt.
    + by apply Qcle_not_lt.
Qed.

Global Instance string_le_total : Total string_le.
Proof. intros s1 s2. apply String.leb_total. Qed.

(** X12: [keys] lists every factor name exactly once, in ascending
    order. *)
Theorem keys_sorted (self : Score) :
  Sorted string_le (keys self)
  /\ NoDup (keys self)
  /\ forall key, key ∈ keys self <-> is_Some (scores self !! key).
Proof.
  unfold keys.
  pose proof (merge_sort_Permutation string_le
                (map_to_list (scores self)).*1) as Hperm.
  split; [apply (Sorted_merge_sort string_le)|]. split.
  - rewrite Hperm. apply NoDup_fst_map_to_list.
  - intros key. rewrite Hperm, <- elem_of_dom.
    by rewrite (leibniz_equiv _ _ (dom_alt (scores self))),
      elem_of_list_to_set.
Qed.

Section FamilyFacts.
Context (Particle___eq__ : Position -> Position -> bool).





End FamilyFacts.

End ScoreFacts.

(** * Further properties of markers and position types *)

Module MarkerFacts.

Lemma find_all_positions_with_data_elem (links : PositionData)
    (data_name : string) (position : Position) (v : DataType) :
  (position, v) ∈ find_all_positions_with_data links data_name
  <-> get_position_data links position data_name = Some v.
Proof.
  unfold find_all_positions_with_data, get_position_data.
  rewrite list_elem_of_omap. split.
  - intros ([[p k] v'] & Hin & Hsome). cbn [fst snd] in Hsome.
    case_bool_decide as Hk; [|done]. injection Hsome as -> ->. subst k.
    by apply elem_of_map_to_list.
  - intros Hlook. exists (position, data_name, v).
    split; [by apply elem_of_map_to_list|]. cbn [fst snd].
    by rewrite bool_decide_eq_true_2.
Qed.

Lemma py_eq_string (v : DataType) (s : string) :
  py_eq v (DStr s) = true <-> v = DStr s.
Proof.
  destruct v as [s'| | |]; cbn; [|done..].
  rewrite bool_decide_eq_true. split; congruence.
Qed.



Lemma find_death_positions_elem (links : PositionData)
    (position : Position) :
  position ∈ find_death_positions links
  <-> get_position_data links position "ending" = Some (DStr "dead").
Proof.
  unfold find_death_positions. rewrite list_elem_of_omap. split.
  - intros ([p v] & Hin & Hsome). cbn [fst snd] in Hsome.
    destruct (py_eq v _) eqn:Heq; [|done]. injection Hsome as ->.
    apply py_eq_string in Heq. subst v.
    by apply find_all_positions_with_data_elem in Hin.
  - intros Hlook. exists (position, DStr "dead").
    split; [by apply find_all_positions_with_data_elem|]. reflexivity.
Qed.

(** X18: a position is among the death positions once it is marked
    [DEAD], and not when it is given any other end marker or none; every
    death position reads back as [DEAD]. *)
Theorem death_positions_are_dead (links : PositionData)
    (position : Position) :
  position ∈ find_death_positions
               (set_track_end_marker links position (Some DEAD))
  /\ (forall end_marker, end_marker <> Some DEAD ->
        position ∉ find_death_positions
                     (set_track_end_marker links position end_marker))
  /\ (position ∈ find_death_positions links ->
      get_track_end_marker links position = Ok (Some DEAD)).
Proof.
  split; [|split].
  - apply find_death_positions_elem.
    unfold set_track_end_marker, set_position_data, get_position_data.
    by rewrite lookup_insert_eq.
  - intros end_marker Hne. rewrite find_death_positions_elem.
    unfold set_track_end_marker, set_position_data, get_position_data.
    destruct end_marker as [[]|].
    + done.
    + by rewrite lookup_insert_eq.
    + by rewrite lookup_delete_eq.
  - intros Hin%find_death_positions_elem.
    unfold get_track_end_marker. rewrite Hin. reflexivity.
Qed.

Section ErroredPositionFacts.
Context {Error : Type} `{ErrorEnum Error}.

(** X19: the errored positions are exactly the positions for which
    [get_error_marker] does not come back with [None]. *)
Theorem errored_positions_have_marker (links : PositionData)
    (position : Position) :
  position ∈ find_errored_positions links
  <-> get_error_marker links position <> Ok None.
Proof.
  unfold find_errored_positions, get_error_marker.
  rewrite list_elem_of_omap. split.
  - intros ([p v] & Hin & Hsome). cbn [fst snd] in Hsome.
    destruct (py_eq_opt _ v) eqn:Hsup; [done|]. injection Hsome as ->.
    apply find_all_positions_with_data_elem in Hin. rewrite Hin, Hsup.
    by destruct (Error_of_data v).
  - destruct (get_position_data links position "error") as [v|] eqn:Herr;
      [|done].
    destruct (py_eq_opt _ v) eqn:Hsup; [done|]. intros _.
    exists (position, v).
    split; [by apply find_all_positions_with_data_elem|].
    cbn [fst snd]. by rewrite Hsup.
Qed.

End ErroredPositionFacts.

End MarkerFacts.

Module PositionTypeFacts.

Lemma upper_ascii_idempotent (c : Ascii.ascii) :
  upper_ascii (upper_ascii c) = upper_ascii c.
Proof. destruct c as [[] [] [] [] [] [] [] []]; reflexivity. Qed.

Lemma upper_idempotent (s : string) : upper (upper s) = upper s.
Proof.
  induction s as [|c s IH]; [done|].
  cbn [upper]. by rewrite upper_ascii_idempotent, IH.
Qed.


Lemma positions_of_type_loop (position_data : PositionData)
    (requested : string) (found : list (Position * DataType)) :
  (forall position v, (position, v) ∈ found -> exists s, v = DStr s) ->
  exists l,
    foldr (fun (found : Position * DataType)
               (rest : result (list Position)) =>
             match found.2 with
             | DStr position_type =>
                 later ← rest;
                 if bool_decide (upper position_type = requested)
                 then Ok (found.1 :: later) else Ok later
             | _ => Raise AttributeError
             end) (Ok []) found = Ok l
    /\ forall position,
         position ∈ l
         <-> exists s, (position, DStr s) ∈ found /\ upper s = requested.
Proof.
  induction found as [|[p v] found IH]; intros Hstr.
  - exists []. split; [done|]. intros position. split.
    + by intros ?%elem_of_nil.
    + by intros (s & ?%elem_of_nil & _).
  - destruct IH as (l & Hl & Hin).
    { intros position v' Hv. apply (Hstr position v'). by right. }
    destruct (Hstr p v) as [s ->]; [by left|].
    cbn [foldr fst snd]. rewrite Hl. cbn.
    case_bool_decide as Hup.
    + eexists. split; [reflexivity|]. intros position.
      rewrite elem_of_cons, Hin. split.
      * intros [->|(s' & Hs' & Hu)]; [exists s; split; [by left|done]|].
        exists s'. split; [by right|done].
      * intros (s' & [[= -> ->]|Hs']%elem_of_cons & Hu);
          [by left | right; eauto].
    + exists l. split; [done|]. intros position. rewrite Hin. split.
      * intros (s' & Hs' & Hu). exists s'. split; [by right|done].
      * intros (s' & [[= -> ->]|Hs']%elem_of_cons & Hu); [done|eauto].
Qed.

(** X21: on position data in which every stored type is a string,
    [get_positions_of_type] returns, and lists exactly the positions
    whose type reads as the requested type in upper case; the case of the
    request does not matter. *)
Theorem positions_of_type_ignore_case (position_data : PositionData)
    (requested_type : string) :
  (forall position v,
     get_position_data position_data position "type" = Some v ->
     exists s, v = DStr s) ->
  exists l,
    get_positions_of_type position_data requested_type = Ok l
    /\ get_positions_of_type position_data (upper requested_type) = Ok l
    /\ forall position,
         position ∈ l
         <-> get_position_type position_data position
             = Ok (Some (upper requested_type)).
Proof.
  intros Hstr. unfold get_positions_of_type. cbn zeta.
  rewrite upper_idempotent.
  destruct (positions_of_type_loop position_data (upper requested_type)
              (find_all_positions_with_data position_data "type"))
    as (l & Hl & Hin).
  { intros position v Hv%MarkerFacts.find_all_positions_with_data_elem.
    eauto. }
  exists l. split; [exact Hl|]. split; [exact Hl|].
  intros position. rewrite Hin. unfold get_position_type. split.
  - intros (s & Hs%MarkerFacts.find_all_positions_with_data_elem & Hu).
    by rewrite Hs, Hu.
  - destruct (get_position_data position_data position "type")
      as [[s| | |]|] eqn:Hget; try done.
    intros [= Hu]. exists s.
    split; [by apply MarkerFacts.find_all_positions_with_data_elem|done].
Qed.

Lemma raised_stays_raised (position_data : PositionData) (e : exn)
    (l : list Position) :
  foldl (fun (acc : result (gmap Position (option string))) position =>
           types ← acc;
           type ← get_position_type position_data position;
           Ok (<[position := type]> types))
        (Raise e) l = Raise e.
Proof. induction l as [|a l IH]; [done|]. cbn [foldl]. exact IH. Qed.

Lemma position_types_loop (position_data : PositionData)
    (l : list Position) (acc res : gmap Position (option string)) :
  foldl (fun (acc : result (gmap Position (option string))) position =>
           types ← acc;
           type ← get_position_type position_data position;
           Ok (<[position := type]> types))
        (Ok acc) l = Ok res ->
  forall position,
    (position ∈ l ->
     exists type,
       res !! position = Some type
       /\ get_position_type position_data position = Ok type)
    /\ (position ∉ l -> res !! position = acc !! position).
Proof.
  revert acc. induction l as [|a l IH]; intros acc Hres position.
  - injection Hres as <-. split; [by intros ?%elem_of_nil | done].
  - cbn [foldl] in Hres.
    destruct (get_position_type position_data a) as [type|e] eqn:Hget;
      cbn in Hres; [|by rewrite raised_stays_raised in Hres].
    destruct (IH _ Hres position) as [Hin Hout].
    destruct (decide (position ∈ l)) as [Hl|Hl].
    + split; [by intros _; apply Hin|].
      intros Hnot. destruct Hnot. by right.
    + split.
      * intros [->|?]%elem_of_cons; [|done].
        exists type. by rewrite (Hout Hl), lookup_insert_eq.
      * intros Hnot. rewrite (Hout Hl). apply lookup_insert_ne.
        intros ->. apply Hnot. by left.
Qed.

Lemma get_position_types_reads (position_data : PositionData)
    (positions : gset Position) (types : gmap Position (option string)) :
  get_position_types position_data positions = Ok types ->
  forall position,
    (position ∈ positions ->
     exists type,
       types !! position = Some type
       /\ get_position_type position_data position = Ok type)
    /\ (position ∉ positions -> types !! position = None).
Proof.
  intros Hres position.
  destruct (position_types_loop _ _ _ _ Hres position) as [Hin Hout].
  rewrite elem_of_elements in Hin, Hout. split; [done|].
  intros Hnot. by rewrite (Hout Hnot), lookup_empty.
Qed.

Lemma set_types_lookup (f : Position -> option string) (l : list Position)
    (position_data : PositionData) (position : Position)
    (data_name : string) :
  foldl (fun acc p => set_position_type acc p (f p)) position_data l
    !! (position, data_name)
  = if bool_decide (data_name = "type" /\ position ∈ l)
    then (fun t => DStr (upper t)) <$> f position
    else position_data !! (position, data_name).
Proof.
  revert position_data. induction l as [|a l IH]; intros position_data.
  - cbn [foldl]. rewrite bool_decide_eq_false_2; [done|].
    by intros [_ ?%elem_of_nil].
  - cbn [foldl]. rewrite IH.
    destruct (decide (data_name = "type" /\ position ∈ l)) as [Hin|Hin].
    + rewrite !bool_decide_eq_true_2; [done| |done].
      split; [apply Hin | right; apply Hin].
    + rewrite (bool_decide_eq_false_2 _ Hin).
      unfold set_position_type, set_position_data.
      destruct (decide ((position, data_name) = (a, "type")))
        as [[= -> ->]|Hne].
      * rewrite bool_decide_eq_true_2 by (split; [done | by left]).
        destruct (f a); cbn; [apply lookup_insert_eq | apply lookup_delete_eq].
      * rewrite bool_decide_eq_false_2.
        -- destruct (f a); [by rewrite lookup_insert_ne
                           | by rewrite lookup_delete_ne].
        -- intros [-> [->|Hl]%elem_of_cons]; [done|]. by apply Hin.
Qed.

(** X22: a [_SetAllAsType] action whose previous types were read with
    [get_position_types] gives every one of its positions the new type,
    in upper case, when done; when undone every position reads the type
    it had before, no other annotation has changed, and the position
    data are exactly as before if every type was stored in upper
    case. *)
Theorem set_all_as_type_undone (position_data : PositionData)
    (positions : gset Position)
    (_previous_position_types : gmap Position (option string))
    (save_name : option string) :
  get_position_types position_data positions
  = Ok _previous_position_types ->
  let changed :=
    _SetAllAsType_do _previous_position_types save_name position_data in
  let restored := _SetAllAsType_undo _previous_position_types changed in
  (forall position, position ∈ positions ->
     get_position_type changed position = Ok (upper <$> save_name))
  /\ (forall position,
        get_position_type restored position
        = get_position_type position_data position)
  /\ (forall position data_name, data_name <> "type" ->
        get_position_data restored position data_name
        = get_position_data position_data position data_name)
  /\ ((forall position s,
         get_position_data position_data position "type" = Some (DStr s) ->
         upper s = s) ->
      restored = position_data).
Proof.
  intros Hprev changed restored.
  pose proof (get_position_types_reads _ _ _ Hprev) as Hreads.
  assert (Hkeys : forall position,
    position ∈ (map_to_list _previous_position_types).*1
    <-> position ∈ positions).
  { intros position. destruct (Hreads position) as [Hin Hout].
    rewrite list_elem_of_fmap. split.
    - intros ([p t] & -> & Ht%elem_of_map_to_list). cbn [fst] in *.
      destruct (decide (p ∈ positions)) as [|Hnot]; [done|].
      by rewrite (Hout Hnot) in Ht.
    - intros Hp. destruct (Hin Hp) as (t & Ht & _).
      exists (position, t). split; [done | by apply elem_of_map_to_list]. }
  assert (Hchanged : forall position data_name,
    changed !! (position, data_name)
    = if bool_decide (data_name = "type" /\ position ∈ positions)
      then (fun t => DStr (upper t)) <$> save_name
      else position_data !! (position, data_name)).
  { intros position data_name. subst changed. unfold _SetAllAsType_do.
    rewrite (set_types_lookup (fun _ => save_name)).
    apply (f_equal (fun b : bool => if b then _ else _)).
    apply bool_decide_ext. by rewrite Hkeys. }
  assert (Hrestored : forall position data_name,
    restored !! (position, data_name)
    = if bool_decide (data_name = "type" /\ position ∈ positions)
      then (fun t => DStr (upper t))
             <$> mjoin (_previous_position_types !! position)
      else position_data !! (position, data_name)).
  { intros position data_name. subst restored. unfold _SetAllAsType_undo.
    rewrite (set_types_lookup
               (fun p => mjoin (_previous_position_types !! p))).
    case_bool_decide as Hin.
    - rewrite bool_decide_eq_true_2; [done|]. by rewrite <- Hkeys.
    - rewrite bool_decide_eq_false_2 by (by rewrite <- Hkeys).
      rewrite Hchanged. rewrite bool_decide_eq_false_2; [done|].
      by rewrite <- Hkeys. }
  assert (Hread_back : forall position, position ∈ positions ->
    exists type,
      mjoin (_previous_position_types !! position) = type
      /\ get_position_type position_data position = Ok type).
  { intros position Hp. destruct (Hreads position) as [Hin _].
    destruct (Hin Hp) as (t & -> & Hget). by exists t. }
  split; [|split; [|split]].
  - intros position Hp. unfold get_position_type, get_position_data.
    rewrite Hchanged, bool_decide_eq_true_2 by done.
    destruct save_name as [t|]; cbn; [|done]. by rewrite upper_idempotent.
  - intros position. unfold get_position_type, get_position_data.
    rewrite Hrestored.
    case_bool_decide as Hin; [|done]. destruct Hin as [_ Hp].
    destruct (Hread_back position Hp) as (type & -> & Hget).
    unfold get_position_type, get_position_data in Hget.
    destruct (position_data !! (position, "type")) as [[s| | |]|];
      try done; injection Hget as <-; cbn; by rewrite ?upper_idempotent.
  - intros position data_name Hname. unfold get_position_data.
    rewrite Hrestored, bool_decide_eq_false_2; [done|]. by intros [? _].
  - intros Hupper. apply map_eq. intros [position data_name].
    rewrite Hrestored. case_bool_decide as Hin; [|done].
    destruct Hin as [-> Hp].
    destruct (Hread_back position Hp) as (type & -> & Hget).
    unfold get_position_type, get_position_data in Hget.
    destruct (position_data !! (position, "type")) as [[s| | |]|] eqn:Hs;
      try done.
    + injection Hget as <-. cbn.
      rewrite upper_idempotent. do 2 f_equal.
      apply (Hupper position). unfold get_position_data. by rewrite Hs.
    + by injection Hget as <-.
Qed.

End PositionTypeFacts.

(** * Properties of the slicing of a volume *)

Module SlicerFacts.

(** With a positive step and enough rounds the loop ends, having run its
    body at the starts 0, size, 2 size, ... below the volume. *)
Lemma while_below_runs {A} (fuel : nat) (start volume size : Z)
    (body : Z -> option (list A)) (f : Z -> list A) :
  0 < size ->
  (Z.to_nat (volume - start) <= fuel)%nat ->
  (forall s, body s = Some (f s)) ->
  exists l,
    while_below fuel start volume size body = Some l
    /\ forall a,
         a ∈ l
         <-> exists i,
               0 <= i /\ start + i * size < volume
               /\ a ∈ f (start + i * size).
Proof.
  intros Hsize Hfuel Hbody. revert start Hfuel.
  induction fuel as [|fuel IH]; intros start Hfuel.
  - cbn [while_below]. rewrite bool_decide_eq_false_2 by lia.
    exists []. split; [done|]. intros a. split.
    + by intros ?%elem_of_nil.
    + intros (i & Hi & Hlt & _). nia.
  - cbn [while_below]. case_bool_decide as Hlt.
    + rewrite Hbody. cbn.
      destruct (IH (start + size)) as (l & -> & Hl); [lia|]. cbn.
      eexists. split; [reflexivity|]. intros a.
      rewrite elem_of_app, Hl. split.
      * intros [Ha|(i & Hi & Hi' & Ha)].
        -- exists 0. rewrite Z.mul_0_l, Z.add_0_r. done.
        -- exists (i + 1).
           replace (start + (i + 1) * size) with (start + size + i * size)
             by lia.
           split; [lia|done].
      * intros (i & Hi & Hi' & Ha).
        destruct (decide (i = 0)) as [->|Hne].
        -- left. by rewrite Z.mul_0_l, Z.add_0_r in Ha.
        -- right. exists (i - 1).
           replace (start + size + (i - 1) * size) with (start + i * size)
             by lia.
           split; [lia|done].
    + exists []. split; [done|]. intros a. split.
      * by intros ?%elem_of_nil.
      * intros (i & Hi & Hi' & _). nia.
Qed.

(** The slices of a volume with positive part sizes: one for every
    triple of part starts below the volume. *)
Lemma get_slices_elem (fuel : nat)
    (volume_zyx image_part_size image_part_margin : Z * Z * Z) :
  0 < image_part_size.1.1 -> 0 < image_part_size.1.2 ->
  0 < image_part_size.2 ->
  (Z.to_nat volume_zyx.1.1 <= fuel)%nat ->
  (Z.to_nat volume_zyx.1.2 <= fuel)%nat ->
  (Z.to_nat volume_zyx.2 <= fuel)%nat ->
  exists slices,
    get_slices fuel volume_zyx image_part_size image_part_margin
    = Some slices
    /\ forall slicer,
         slicer ∈ slices
         <-> exists i j k,
               0 <= i /\ i * image_part_size.1.1 < volume_zyx.1.1
               /\ 0 <= j /\ j * image_part_size.1.2 < volume_zyx.1.2
               /\ 0 <= k /\ k * image_part_size.2 < volume_zyx.2
               /\ slicer
                  = slicer_at volume_zyx image_part_size image_part_margin
                      (i * image_part_size.1.1) (j * image_part_size.1.2)
                      (k * image_part_size.2).
Proof.
  intros Hsz Hsy Hsx Hfuelz Hfuely Hfuelx. unfold get_slices.
  assert (Hx : forall start_z start_y, exists l,
    while_below fuel 0 volume_zyx.2 image_part_size.2 (fun start_x =>
      Some [slicer_at volume_zyx image_part_size image_part_margin
              start_z start_y start_x]) = Some l
    /\ forall a, a ∈ l <-> exists k,
         0 <= k /\ k * image_part_size.2 < volume_zyx.2
         /\ a = slicer_at volume_zyx image_part_size image_part_margin
                  start_z start_y (k * image_part_size.2)).
  { intros start_z start_y.
    destruct (while_below_runs fuel 0 volume_zyx.2 image_part_size.2
      (fun start_x =>
         Some [slicer_at volume_zyx image_part_size image_part_margin
                 start_z start_y start_x])
      (fun start_x =>
         [slicer_at volume_zyx image_part_size image_part_margin
            start_z start_y start_x])) as (l & Hl & Hin);
      [done | lia | done |].
    exists l. split; [done|]. intros a. rewrite Hin.
    split; intros (k & Hk & Hlt & Ha); exists k;
      rewrite Z.add_0_l in *; [apply list_elem_of_singleton in Ha|];
      (split; [done|]); (split; [done|]);
      [done | by apply list_elem_of_singleton]. }
  (* name the result of the inner loops *)
  assert (Hx' : exists fx : Z -> Z -> list Slicer3d,
    forall start_z start_y,
      while_below fuel 0 volume_zyx.2 image_part_size.2 (fun start_x =>
        Some [slicer_at volume_zyx image_part_size image_part_margin
                start_z start_y start_x]) = Some (fx start_z start_y)
      /\ forall a, a ∈ fx start_z start_y <-> exists k,
           0 <= k /\ k * image_part_size.2 < volume_zyx.2
           /\ a = slicer_at volume_zyx image_part_size image_part_margin
                    start_z start_y (k * image_part_size.2)).
  { exists (fun start_z start_y =>
      default [] (while_below fuel 0 volume_zyx.2 image_part_size.2
        (fun start_x =>
           Some [slicer_at volume_zyx image_part_size image_part_margin
                   start_z start_y start_x]))).
    intros start_z start_y.
    destruct (Hx start_z start_y) as (l & -> & Hl). done. }
  destruct Hx' as (fx & Hfx).
  assert (Hy : exists fy : Z -> list Slicer3d,
    forall start_z,
      while_below fuel 0 volume_zyx.1.2 image_part_size.1.2 (fun start_y =>
        while_below fuel 0 volume_zyx.2 image_part_size.2 (fun start_x =>
          Some [slicer_at volume_zyx image_part_size image_part_margin
                  start_z start_y start_x])) = Some (fy start_z)
      /\ forall a, a ∈ fy start_z <-> exists j k,
           0 <= j /\ j * image_part_size.1.2 < volume_zyx.1.2
           /\ 0 <= k /\ k * image_part_size.2 < volume_zyx.2
           /\ a = slicer_at volume_zyx image_part_size image_part_margin
                    start_z (j * image_part_size.1.2)
                    (k * image_part_size.2)).
  { assert (Hy0 : forall start_z, exists l,
      while_below fuel 0 volume_zyx.1.2 image_part_size.1.2 (fun start_y =>
        while_below fuel 0 volume_zyx.2 image_part_size.2 (fun start_x =>
          Some [slicer_at volume_zyx image_part_size image_part_margin
                  start_z start_y start_x])) = Some l
      /\ forall a, a ∈ l <-> exists j k,
           0 <= j /\ j * image_part_size.1.2 < volume_zyx.1.2
           /\ 0 <= k /\ k * image_part_size.2 < volume_zyx.2
           /\ a = slicer_at volume_zyx image_part_size image_part_margin
                    start_z (j * image_part_size.1.2)
                    (k * image_part_size.2)).
    { intros start_z.
      destruct (while_below_runs fuel 0 volume_zyx.1.2 image_part_size.1.2
        (fun start_y =>
           while_below fuel 0 volume_zyx.2 image_part_size.2
             (fun start_x =>
                Some [slicer_at volume_zyx image_part_size
                        image_part_margin start_z start_y start_x]))
        (fx start_z)) as (l & Hl & Hin);
        [done | lia | intros s; apply Hfx |].
      exists l. split; [done|]. intros a. rewrite Hin. split.
      - intros (j & Hj & Hlt & Ha). rewrite Z.add_0_l in *.
        apply Hfx in Ha as (k & Hk & Hkl & ->). exists j, k. done.
      - intros (j & k & Hj & Hlt & Hk & Hkl & ->). exists j.
        rewrite Z.add_0_l. split; [done|]. split; [done|].
        apply Hfx. exists k. done. }
    exists (fun start_z =>
      default [] (while_below fuel 0 volume_zyx.1.2 image_part_size.1.2
        (fun start_y =>
           while_below fuel 0 volume_zyx.2 image_part_size.2
             (fun start_x =>
                Some [slicer_at volume_zyx image_part_size
                        image_part_margin start_z start_y start_x])))).
    intros start_z. destruct (Hy0 start_z) as (l & -> & Hl). done. }
  destruct Hy as (fy & Hfy).
  destruct (while_below_runs fuel 0 volume_zyx.1.1 image_part_size.1.1
    (fun start_z =>
       while_below fuel 0 volume_zyx.1.2 image_part_size.1.2
         (fun start_y =>
            while_below fuel 0 volume_zyx.2 image_part_size.2
              (fun start_x =>
                 Some [slicer_at volume_zyx image_part_size
                         image_part_margin start_z start_y start_x])))
    fy) as (l & Hl & Hin); [done | lia | intros s; apply Hfy |].
  exists l. split; [done|]. intros a. rewrite Hin. split.
  - intros (i & Hi & Hlt & Ha). rewrite Z.add_0_l in *.
    apply Hfy in Ha as (j & k & Hj & Hjl & Hk & Hkl & ->).
    exists i, j, k. done.
  - intros (i & j & k & Hi & Hil & Hj & Hjl & Hk & Hkl & ->). exists i.
    rewrite Z.add_0_l. split; [done|]. split; [done|].
    apply Hfy. exists j, k. done.
Qed.

Lemma slicer_at_axes (vz vy vx sz sy sx mz my mx z y x : Z) :
  slicer_at (vz, vy, vx) (sz, sy, sx) (mz, my, mx) z y x
  = mkSlicer3d
      ((axis_bounds vz sz mz z).1, (axis_bounds vy sy my y).1,
       (axis_bounds vx sx mx x).1)
      ((axis_bounds vz sz mz z).2, (axis_bounds vy sy my y).2,
       (axis_bounds vx sx mx x).2)
      (z, y, x) (z + sz, y + sy, x + sx).
Proof.
  unfold slicer_at, axis_bounds. cbn zeta.
  repeat case_bool_decide; reflexivity.
Qed.

Lemma axis_bounds_facts (volume size margin start : Z) :
  let bounds := axis_bounds volume size margin start in
  bounds.2 - bounds.1 = size + 2 * margin
  /\ bounds.2 <= volume
  /\ (0 <= bounds.1 <-> size + 2 * margin <= volume)
  /\ (0 <= margin -> 0 <= start ->
      bounds.1 <= start /\ Z.min (start + size) volume <= bounds.2).
Proof.
  unfold axis_bounds. cbn zeta. case_bool_decide; cbn [fst snd]; lia.
Qed.

(** X23: for positive part sizes the slicing ends, and every slice has the
    size of a part plus twice the margin along each axis and ends inside
    the volume; it starts inside the volume exactly when the volume is
    at least that large along the axis, and reaches below 0 otherwise. *)
Theorem slices_have_one_size (fuel : nat)
    (volume_zyx image_part_size image_part_margin : Z * Z * Z) :
  0 < image_part_size.1.1 -> 0 < image_part_size.1.2 ->
  0 < image_part_size.2 ->
  (Z.to_nat volume_zyx.1.1 <= fuel)%nat ->
  (Z.to_nat volume_zyx.1.2 <= fuel)%nat ->
  (Z.to_nat volume_zyx.2 <= fuel)%nat ->
  exists slices,
    get_slices fuel volume_zyx image_part_size image_part_margin
    = Some slices
    /\ forall slicer, slicer ∈ slices ->
         ((_end slicer).1.1 - (_start slicer).1.1
            = image_part_size.1.1 + 2 * image_part_margin.1.1
          /\ (_end slicer).1.2 - (_start slicer).1.2
             = image_part_size.1.2 + 2 * image_part_margin.1.2
          /\ (_end slicer).2 - (_start slicer).2
             = image_part_size.2 + 2 * image_part_margin.2)
         /\ ((_end slicer).1.1 <= volume_zyx.1.1
             /\ (_end slicer).1.2 <= volume_zyx.1.2
             /\ (_end slicer).2 <= volume_zyx.2)
         /\ ((0 <= (_start slicer).1.1
              <-> image_part_size.1.1 + 2 * image_part_margin.1.1
                  <= volume_zyx.1.1)
             /\ (0 <= (_start slicer).1.2
                 <-> image_part_size.1.2 + 2 * image_part_margin.1.2
                     <= volume_zyx.1.2)
             /\ (0 <= (_start slicer).2
                 <-> image_part_size.2 + 2 * image_part_margin.2
                     <= volume_zyx.2)).
Proof.
  intros Hsz Hsy Hsx Hfz Hfy Hfx.
  destruct (get_slices_elem fuel volume_zyx image_part_size
              image_part_margin) as (slices & Hslices & Hin); [done..|].
  exists slices. split; [exact Hslices|].
  intros slicer (i & j & k & _ & _ & _ & _ & _ & _ & ->)%Hin.
  destruct volume_zyx as [[vz vy] vx], image_part_size as [[sz sy] sx],
    image_part_margin as [[mz my] mx].
  cbn [fst snd] in *. rewrite slicer_at_axes. cbn [_start _end fst snd].
  pose proof (axis_bounds_facts vz sz mz (i * sz)) as (Hz1 & Hz2 & Hz3 & _).
  pose proof (axis_bounds_facts vy sy my (j * sy)) as (Hy1 & Hy2 & Hy3 & _).
  pose proof (axis_bounds_facts vx sx mx (k * sx)) as (Hx1 & Hx2 & Hx3 & _).
  done.
Qed.

(** X24: with margins that are not negative, the part of a slice's area of
    interest that lies in the volume lies in the slice. *)
Theorem area_of_interest_in_slice (fuel : nat)
    (volume_zyx image_part_size image_part_margin : Z * Z * Z) :
  0 < image_part_size.1.1 -> 0 < image_part_size.1.2 ->
  0 < image_part_size.2 ->
  (Z.to_nat volume_zyx.1.1 <= fuel)%nat ->
  (Z.to_nat volume_zyx.1.2 <= fuel)%nat ->
  (Z.to_nat volume_zyx.2 <= fuel)%nat ->
  0 <= image_part_margin.1.1 -> 0 <= image_part_margin.1.2 ->
  0 <= image_part_margin.2 ->
  exists slices,
    get_slices fuel volume_zyx image_part_size image_part_margin
    = Some slices
    /\ forall slicer point,
         slicer ∈ slices ->
         in_box (_area_of_interest_start slicer)
           (_area_of_interest_end slicer) point ->
         in_box (0, 0, 0) volume_zyx point ->
         in_box (_start slicer) (_end slicer) point.
Proof.
  intros Hsz Hsy Hsx Hfz Hfy Hfx Hmz Hmy Hmx.
  destruct (get_slices_elem fuel volume_zyx image_part_size
              image_part_margin) as (slices & Hslices & Hin); [done..|].
  exists slices. split; [exact Hslices|].
  intros slicer point (i & j & k & Hi & _ & Hj & _ & Hk & _ & ->)%Hin.
  destruct volume_zyx as [[vz vy] vx], image_part_size as [[sz sy] sx],
    image_part_margin as [[mz my] mx], point as [[pz py] px].
  cbn [fst snd] in *. rewrite slicer_at_axes.
  unfold in_box. cbn [_start _end _area_of_interest_start
                      _area_of_interest_end fst snd].
  pose proof (axis_bounds_facts vz sz mz (i * sz)) as (_ & _ & _ & Hz).
  pose proof (axis_bounds_facts vy sy my (j * sy)) as (_ & _ & _ & Hy).
  pose proof (axis_bounds_facts vx sx mx (k * sx)) as (_ & _ & _ & Hx).
  specialize (Hz Hmz ltac:(nia)). specialize (Hy Hmy ltac:(nia)).
  specialize (Hx Hmx ltac:(nia)). lia.
Qed.

Lemma part_of_point (size point : Z) :
  0 < size -> 0 <= point ->
  0 <= point / size
  /\ (point / size) * size <= point < (point / size) * size + size.
Proof.
  intros Hsize Hpoint.
  pose proof (Z.div_mod point size ltac:(lia)) as Hdm.
  pose proof (Z.mod_pos_bound point size Hsize) as Hmod.
  split; [apply Z.div_pos; lia | lia].
Qed.

Lemma part_unique (size point i i' : Z) :
  0 < size ->
  i * size <= point < i * size + size ->
  i' * size <= point < i' * size + size ->
  i' = i.
Proof. intros Hsize Hi Hi'. nia. Qed.

(** X25: the areas of interest tile the volume: every point of the volume
    lies in the area of interest of exactly one slice. *)
Theorem areas_of_interest_tile (fuel : nat)
    (volume_zyx image_part_size image_part_margin : Z * Z * Z) :
  0 < image_part_size.1.1 -> 0 < image_part_size.1.2 ->
  0 < image_part_size.2 ->
  (Z.to_nat volume_zyx.1.1 <= fuel)%nat ->
  (Z.to_nat volume_zyx.1.2 <= fuel)%nat ->
  (Z.to_nat volume_zyx.2 <= fuel)%nat ->
  exists slices,
    get_slices fuel volume_zyx image_part_size image_part_margin
    = Some slices
    /\ forall point,
         in_box (0, 0, 0) volume_zyx point ->
         exists slicer,
           slicer ∈ slices
           /\ in_box (_area_of_interest_start slicer)
                (_area_of_interest_end slicer) point
           /\ forall other,
                other ∈ slices ->
                in_box (_area_of_interest_start other)
                  (_area_of_interest_end other) point ->
                other = slicer.
Proof.
  intros Hsz Hsy Hsx Hfz Hfy Hfx.
  destruct (get_slices_elem fuel volume_zyx image_part_size
              image_part_margin) as (slices & Hslices & Hin); [done..|].
  exists slices. split; [exact Hslices|].
  destruct volume_zyx as [[vz vy] vx], image_part_size as [[sz sy] sx],
    image_part_margin as [[mz my] mx].
  intros [[pz py] px] (Hpz & Hpy & Hpx). cbn [fst snd] in *.
  destruct (part_of_point sz pz) as (Hi & Hiz); [lia..|].
  destruct (part_of_point sy py) as (Hj & Hjy); [lia..|].
  destruct (part_of_point sx px) as (Hk & Hkx); [lia..|].
  exists (slicer_at (vz, vy, vx) (sz, sy, sx) (mz, my, mx)
            (pz / sz * sz) (py / sy * sy) (px / sx * sx)).
  split; [|split].
  - apply Hin. exists (pz / sz), (py / sy), (px / sx). cbn [fst snd].
    repeat split; try done; lia.
  - rewrite slicer_at_axes. unfold in_box.
    cbn [_area_of_interest_start _area_of_interest_end fst snd]. lia.
  - intros other (i & j & k & _ & _ & _ & _ & _ & _ & ->)%Hin Hbox.
    cbn [fst snd] in Hbox |- *. rewrite slicer_at_axes in Hbox.
    unfold in_box in Hbox.
    cbn [_area_of_interest_start _area_of_interest_end fst snd] in Hbox.
    destruct Hbox as (Hz & Hy & Hx).
    assert (i = pz / sz) as -> by (by apply (part_unique sz pz)).
    assert (j = py / sy) as -> by (by apply (part_unique sy py)).
    assert (k = px / sx) as -> by (by apply (part_unique sx px)).
    reflexivity.
Qed.

Lemma while_below_never_ends {A} (fuel : nat) (start volume size : Z)
    (body : Z -> option (list A)) :
  size <= 0 -> start < volume ->
  while_below fuel start volume size body = None.
Proof.
  intros Hsize. revert start.
  induction fuel as [|fuel IH]; intros start Hlt; cbn [while_below];
    rewrite bool_decide_eq_true_2 by done; [done|].
  destruct (body start); [|done]. cbn. rewrite IH by lia. done.
Qed.

Lemma while_below_body_fails {A} (fuel : nat) (start volume size : Z)
    (body : Z -> option (list A)) :
  start < volume -> body start = None ->
  while_below fuel start volume size body = None.
Proof.
  intros Hlt Hbody. destruct fuel; cbn [while_below];
    rewrite bool_decide_eq_true_2 by done; [done|].
  by rewrite Hbody.
Qed.

(** X26: in a volume that is not empty, a part size of 0 or less along
    some axis makes the slicing run forever: no number of rounds
    suffices. *)
Theorem slicing_needs_positive_sizes (fuel : nat)
    (volume_zyx image_part_size image_part_margin : Z * Z * Z) :
  0 < volume_zyx.1.1 -> 0 < volume_zyx.1.2 -> 0 < volume_zyx.2 ->
  image_part_size.1.1 <= 0 \/ image_part_size.1.2 <= 0
  \/ image_part_size.2 <= 0 ->
  get_slices fuel volume_zyx image_part_size image_part_margin = None.
Proof.
  intros Hvz Hvy Hvx Hsize. unfold get_slices.
  destruct Hsize as [Hz|[Hy|Hx]].
  - by apply while_below_never_ends.
  - apply while_below_body_fails; [done|].
    by apply while_below_never_ends.
  - apply while_below_body_fails; [done|].
    apply while_below_body_fails; [done|].
    by apply while_below_never_ends.
Qed.

End SlicerFacts.

(** * Further properties of the division count *)

Section DivisionCountBounds.
Context {LinkingTrack : Type} `{LinkingTrackMethods LinkingTrack}.

Lemma division_count_loop_bounds (links : PositionData)
    (last_time_point_number : Z) (tracks : list LinkingTrack)
    (division_count n : Z) :
  division_count_loop links last_time_point_number tracks division_count
  = Ok (Some n) ->
  division_count <= n <= division_count + Z.of_nat (length tracks).
Proof.
  revert division_count.
  induction tracks as [|track rest IH]; intros division_count.
  - cbn. intros [= <-]. lia.
  - cbn [division_count_loop length]. case_bool_decide.
    + intros Hn%IH. lia.
    + destruct (ended_for_unknown_reason links last_time_point_number track)
        as [[]|]; cbn; [done| |done].
      destruct (_ && _); intros Hn%IH; lia.
Qed.

Lemma division_count_loop_skips (links : PositionData)
    (last_time_point_number : Z) (tracks : list LinkingTrack)
    (division_count : Z) :
  (forall track, track ∈ tracks ->
     min_time_point_number track > last_time_point_number) ->
  division_count_loop links last_time_point_number tracks division_count
  = Ok (Some division_count).
Proof.
  induction tracks as [|track rest IH]; intros Hafter; [done|].
  cbn [division_count_loop].
  rewrite bool_decide_eq_true_2 by (apply Hafter; by left).
  apply IH. intros track' Hin. apply Hafter. by right.
Qed.

(** X27: a division count that is known lies between 0 and the number of
    descending tracks; and when every descending track starts after the
    time bound the count is 0, whatever the end markers are. *)
Theorem division_count_bounds (starting_track : LinkingTrack)
    (links : PositionData) (last_time_point_number : Z) :
  (forall n,
     get_division_count_in_lineage starting_track links
       last_time_point_number = Ok (Some n) ->
     0 <= n
     <= Z.of_nat (length (find_all_descending_tracks starting_track true)))
  /\ ((forall track,
         track ∈ find_all_descending_tracks starting_track true ->
         min_time_point_number track > last_time_point_number) ->
      get_division_count_in_lineage starting_track links
        last_time_point_number = Ok (Some 0)).
Proof.
  unfold get_division_count_in_lineage. split.
  - intros n Hn%division_count_loop_bounds. lia.
  - apply division_count_loop_skips.
Qed.

End DivisionCountBounds.

(** * The further properties on concrete inputs *)

Module MoreRuns.
Import Examples MoreExamples PositionCollection PositionCollectionFacts.
Import PositionStoreFacts ScoreFacts MarkerFacts PositionTypeFacts.
Import SlicerFacts.

Lemma one_position_store_well_kept : well_kept one_position_store.
Proof.
  change one_position_store
    with (run [Add stored_position (Some (KnownShape 7))] __init__).
  apply run_well_kept, well_kept_init.
Defined.



Lemma has_positions_means_nonempty_run :
  well_kept one_position_store
  /\ has_positions one_position_store = true
  /\ (0 < __len__ one_position_store)%nat.
Proof.
  split; [exact one_position_store_well_kept|].
  assert (Hhas : has_positions one_position_store = true)
    by (vm_compute; reflexivity).
  split; [exact Hhas|].
  destruct (has_positions_means_nonempty one_position_store
              one_position_store_well_kept) as (Hlen & _).
  by apply Hlen.
Defined.





Lemma typed_data_strings (position : Position) (v : DataType) :
  get_position_data typed_data position "type" = Some v ->
  exists s, v = DStr s.
Proof.
  unfold typed_data, set_position_type, set_position_data, get_position_data.
  intros [[_ <-]|[_ Hv]]%lookup_insert_Some; [by eexists|].
  by rewrite lookup_empty in Hv.
Defined.

Lemma positions_of_type_ignore_case_run :
  (forall position v,
     get_position_data typed_data position "type" = Some v ->
     exists s, v = DStr s)
  /\ exists l,
       get_positions_of_type typed_data "Stem" = Ok l
       /\ (stored_position ∈ l
           <-> get_position_type typed_data stored_position
               = Ok (Some (upper "Stem"))).
Proof.
  split; [exact typed_data_strings|].
  destruct (positions_of_type_ignore_case typed_data "Stem"
              typed_data_strings) as (l & Hl & _ & Hin).
  exists l. split; [exact Hl | apply Hin].
Defined.

Lemma set_all_as_type_undone_run :
  get_position_types typed_data typed_positions = Ok typed_before
  /\ get_position_type
       (_SetAllAsType_undo typed_before
          (_SetAllAsType_do typed_before (Some "paneth") typed_data))
       stored_position
     = get_position_type typed_data stored_position.
Proof.
  assert (Hget : get_position_type typed_data stored_position
                 = Ok (Some "STEM")).
  { unfold get_position_type, typed_data, set_position_type,
      set_position_data, get_position_data.
    rewrite lookup_insert_eq. reflexivity. }
  assert (Hread : get_position_types typed_data typed_positions
                  = Ok typed_before).
  { unfold get_position_types, typed_positions.
    rewrite elements_singleton. cbn [foldl mbind result_bind].
    rewrite Hget. reflexivity. }
  split; [exact Hread|].
  destruct (set_all_as_type_undone typed_data typed_positions typed_before
              (Some "paneth") Hread) as (_ & Hrestored & _).
  apply Hrestored.
Defined.

Lemma slices_have_one_size_run :
  (0 < part_size.1.1 /\ 0 < part_size.1.2 /\ 0 < part_size.2)
  /\ ((Z.to_nat flat_volume.1.1 <= 10)%nat
      /\ (Z.to_nat flat_volume.1.2 <= 10)%nat
      /\ (Z.to_nat flat_volume.2 <= 10)%nat)
  /\ exists slices,
       get_slices 10 flat_volume part_size part_margin = Some slices
       /\ forall slicer, slicer ∈ slices ->
            (_end slicer).2 - (_start slicer).2 = 6.
Proof.
  assert (Hz : 0 < part_size.1.1) by (cbn; lia).
  assert (Hy : 0 < part_size.1.2) by (cbn; lia).
  assert (Hx : 0 < part_size.2) by (cbn; lia).
  assert (Hfz : (Z.to_nat flat_volume.1.1 <= 10)%nat) by (cbn; lia).
  assert (Hfy : (Z.to_nat flat_volume.1.2 <= 10)%nat) by (cbn; lia).
  assert (Hfx : (Z.to_nat flat_volume.2 <= 10)%nat) by (cbn; lia).
  split; [done|]. split; [done|].
  destruct (slices_have_one_size 10 flat_volume part_size part_margin
              Hz Hy Hx Hfz Hfy Hfx) as (slices & Hslices & Hsize).
  exists slices. split; [exact Hslices|].
  intros slicer Hin. destruct (Hsize slicer Hin) as ((_ & _ & Hx6) & _).
  exact Hx6.
Defined.

Lemma area_of_interest_in_slice_run :
  (0 < part_size.1.1 /\ 0 < part_size.1.2 /\ 0 < part_size.2)
  /\ ((Z.to_nat flat_volume.1.1 <= 10)%nat
      /\ (Z.to_nat flat_volume.1.2 <= 10)%nat
      /\ (Z.to_nat flat_volume.2 <= 10)%nat)
  /\ (0 <= part_margin.1.1 /\ 0 <= part_margin.1.2 /\ 0 <= part_margin.2)
  /\ exists slices,
       get_slices 10 flat_volume part_size part_margin = Some slices
       /\ forall slicer point,
            slicer ∈ slices ->
            in_box (_area_of_interest_start slicer)
              (_area_of_interest_end slicer) point ->
            in_box (0, 0, 0) flat_volume point ->
            in_box (_start slicer) (_end slicer) point.
Proof.
  assert (Hz : 0 < part_size.1.1) by (cbn; lia).
  assert (Hy : 0 < part_size.1.2) by (cbn; lia).
  assert (Hx : 0 < part_size.2) by (cbn; lia).
  assert (Hfz : (Z.to_nat flat_volume.1.1 <= 10)%nat) by (cbn; lia).
  assert (Hfy : (Z.to_nat flat_volume.1.2 <= 10)%nat) by (cbn; lia).
  assert (Hfx : (Z.to_nat flat_volume.2 <= 10)%nat) by (cbn; lia).
  assert (Hmz : 0 <= part_margin.1.1) by (cbn; lia).
  assert (Hmy : 0 <= part_margin.1.2) by (cbn; lia).
  assert (Hmx : 0 <= part_margin.2) by (cbn; lia).
  split; [done|]. split; [done|]. split; [done|].
  exact (area_of_interest_in_slice 10 flat_volume part_size part_margin
           Hz Hy Hx Hfz Hfy Hfx Hmz Hmy Hmx).
Defined.

Lemma areas_of_interest_tile_run :
  (0 < part_size.1.1 /\ 0 < part_size.1.2 /\ 0 < part_size.2)
  /\ ((Z.to_nat flat_volume.1.1 <= 10)%nat
      /\ (Z.to_nat flat_volume.1.2 <= 10)%nat
      /\ (Z.to_nat flat_volume.2 <= 10)%nat)
  /\ exists slices,
       get_slices 10 flat_volume part_size part_margin = Some slices
       /\ exists slicer,
            slicer ∈ slices
            /\ in_box (_area_of_interest_start slicer)
                 (_area_of_interest_end slicer) (0, 9, 5).
Proof.
  assert (Hz : 0 < part_size.1.1) by (cbn; lia).
  assert (Hy : 0 < part_size.1.2) by (cbn; lia).
  assert (Hx : 0 < part_size.2) by (cbn; lia).
  assert (Hfz : (Z.to_nat flat_volume.1.1 <= 10)%nat) by (cbn; lia).
  assert (Hfy : (Z.to_nat flat_volume.1.2 <= 10)%nat) by (cbn; lia).
  assert (Hfx : (Z.to_nat flat_volume.2 <= 10)%nat) by (cbn; lia).
  split; [done|]. split; [done|].
  destruct (areas_of_interest_tile 10 flat_volume part_size part_margin
              Hz Hy Hx Hfz Hfy Hfx) as (slices & Hslices & Htile).
  exists slices. split; [exact Hslices|].
  destruct (Htile (0, 9, 5)) as (slicer & Hin & Hbox & _).
  { unfold in_box. cbn. lia. }
  exists slicer. done.
Defined.

Lemma slicing_needs_positive_sizes_run :
  (0 < flat_volume.1.1 /\ 0 < flat_volume.1.2 /\ 0 < flat_volume.2)
  /\ get_slices 1000 flat_volume (1, 0, 4) part_margin = None.
Proof.
  assert (Hz : 0 < flat_volume.1.1) by (cbn; lia).
  assert (Hy : 0 < flat_volume.1.2) by (cbn; lia).
  assert (Hx : 0 < flat_volume.2) by (cbn; lia).
  split; [done|].
  apply (slicing_needs_positive_sizes 1000 flat_volume (1, 0, 4) part_margin
           Hz Hy Hx).
  right. left. cbn. lia.
Defined.

End MoreRuns.
